(** * devsecops-ai: the detection and classification pipeline

    A shallow embedding of the Go packages [models], [reporter], [scanner]
    and [ai] of SofNam/devsecops-ai, and the properties of the pipeline
    proved on it.

    Conventions of the embedding:
    - a Go [string] is a [string] (a sequence of bytes);
    - a Go [int] is a [Z]; the counters of this program never exceed the
      length of a slice, so no wrap-around can occur on them;
    - a Go [float64] is an exact rational [Qc]: every weight the program adds
      is 1.0 or 0.5, so the sums are exact in [float64] too; the only other
      operations are one division, which is exact where the quotient is 1.0,
      and comparisons; a number read from a file is refused where it is
      beyond the range of [float64] and kept as written otherwise;
    - a Go [error] is a value of [Go.error]; a function returning
      [(T, error)] returns a pair with an [option Go.error], or a
      [Go.result] where the value is not used on failure;
    - a Go [map] is a [gmap]; the order in which [range] visits it is not
      fixed by the language, so every loop over a map takes the visiting
      order as an argument. *)

From Stdlib Require Import Ascii String QArith Qcanon.
From stdpp Require Import gmap strings list fin_maps numbers sorting pretty.

Set Warnings "-register-all".

Local Open Scope string_scope.
Local Open Scope list_scope.
Local Open Scope Z_scope.

(* ===================================================================== *)
(** * Go runtime and library fragments *)
(* ===================================================================== *)

Module Go.

(** Errors, as the program creates, wraps and returns them. *)
Inductive error : Type :=
| ErrNotExist (path : string)          (* os: no such file *)
| ErrPermission (path : string)        (* os: file exists, cannot be read *)
| SyntaxError                          (* json: input is not JSON text *)
| UnmarshalTypeError (target : string) (* json: value does not fit the Go type *)
| Errorf (msg : string)                (* fmt.Errorf without operand *)
| Wrapf (msg : string) (cause : error) (* fmt.Errorf("<msg>: %v", cause) *)
| WalkError (msg : string).            (* an error handed to a WalkFunc *)

Inductive result (A : Type) : Type :=
| Ok (a : A)
| Err (e : error).
Global Arguments Ok {A} a.
Global Arguments Err {A} e.

Definition is_Ok {A} (r : result A) : bool :=
  match r with Ok _ => true | Err _ => false end.

(** What a call that may panic yields. *)
Inductive outcome (A : Type) : Type :=
| Returns (a : A)
| Panics (msg : string).
Global Arguments Returns {A} a.
Global Arguments Panics {A} msg.

Global Instance outcome_bind : MBind outcome := λ A B f m,
  match m with
  | Returns a => f a
  | Panics msg => Panics msg
  end.

(** 0.5 *)
Definition half : Qc := Q2Qc (1 # 2).

(** [strings.Contains s substr]. *)
Fixpoint Contains (s substr : string) : bool :=
  String.prefix substr s ||
  match s with
  | EmptyString => false
  | String _ s' => Contains s' substr
  end.

(** [strings.ToLower] on the ASCII letters; bytes outside A-Z are kept. *)
Definition lower_byte (c : ascii) : ascii :=
  let n := nat_of_ascii c in
  if ((65 <=? n) && (n <=? 90))%nat then ascii_of_nat (n + 32) else c.

Fixpoint ToLower (s : string) : string :=
  match s with
  | EmptyString => EmptyString
  | String c s' => String (lower_byte c) (ToLower s')
  end.

(** [filepath.Join dir name] for a clean [dir] and a plain file name. *)
Definition Join (dir name : string) : string :=
  if decide (dir = "") then name else dir +:+ "/" +:+ name.

(** [s[:k]] on a slice whose capacity is its length. *)
Definition slice_to {A} (s : list A) (k : Z) : outcome (list A) :=
  if decide (0 <= k <= Z.of_nat (length s))
  then Returns (take (Z.to_nat k) s)
  else Panics "slice bounds out of range".

(** The insertion sort that [sort.Slice] runs on a slice of at most twelve
    elements ([insertionSortLessFunc]): element [i] moves left while it is
    [less] than its left neighbour.  [sort.Slice] is not stable in general;
    on such short slices it is.  The properties proved of [Slice] below
    (it permutes the slice, and nothing has to go before its head) hold of
    any sort. *)
Section InsertionSort.
Context {A : Type} (less : A → A → bool).

(** [sink rsorted x]: [rsorted] is the sorted prefix, from its right end
    to its left end, and [x] the element entering at its right end. *)
Fixpoint sink (rsorted : list A) (x : A) : list A :=
  match rsorted with
  | [] => [x]
  | y :: rest => if less x y then y :: sink rest x else x :: y :: rest
  end.

(** The outer loop, on the reversed prefix. *)
Definition insertion_rev (data : list A) : list A :=
  fold_left sink data [].

Definition Slice (data : list A) : list A := reverse (insertion_rev data).
End InsertionSort.

(** A JSON value. *)
Inductive json : Type :=
| JNull
| JBool (b : bool)
| JInt (z : Z)      (* a number literal without fraction or exponent *)
| JReal (q : Qc)    (* a number literal with a fraction or an exponent *)
| JStr (s : string)
| JArr (elems : list json)
| JObj (members : list (string * json)).

(** A file of the model directory or of the scanned tree. *)
Inductive file : Type :=
| Unreadable                (* present, but reading it fails *)
| JsonText (doc : json)     (* JSON text, given by the value it denotes *)
| OtherText (text : string) (* bytes that are not JSON text *).

(** The order in which a [range] loop visits the entries of a map. *)
Definition iteration (V : Type) : Type := gmap string V → list (string * V).

(** Whatever the order, each entry is visited once. *)
Definition visits_all {V} (range : iteration V) : Prop :=
  ∀ m, range m ≡ₚ map_to_list m.

(** [os.Stat path] returns no error. *)
Definition Stat_ok (fs : gmap string file) (path : string) : bool :=
  bool_decide (is_Some (fs !! path)).

(** [os.ReadFile path]. *)
Definition ReadFile (fs : gmap string file) (path : string) : result file :=
  match fs !! path with
  | None => Err (ErrNotExist path)
  | Some Unreadable => Err (ErrPermission path)
  | Some f => Ok f
  end.

End Go.

(* ===================================================================== *)
(** * encoding/json: [Unmarshal] into the types this program decodes *)
(* ===================================================================== *)

Module Json.
Import Go.

(** The syntax check [Unmarshal] makes before it decodes anything. *)
Definition parse (f : file) : result json :=
  match f with
  | JsonText doc => Ok doc
  | _ => Err SyntaxError
  end.

(** A decoder for a Go type takes the value the target holds and the JSON
    value, and gives the value the target holds afterwards.  JSON [null]
    leaves every target of this program as it is.  On a value that does not
    fit, [Unmarshal] returns the first such error; what it leaves in the
    target then is not modelled, since every caller drops it. *)
Definition decoder (T : Type) : Type := T → json → result T.

Definition string_ : decoder string := λ cur v,
  match v with
  | JNull => Ok cur
  | JStr s => Ok s
  | _ => Err (UnmarshalTypeError "string")
  end.

Definition bool_ : decoder bool := λ cur v,
  match v with
  | JNull => Ok cur
  | JBool b => Ok b
  | _ => Err (UnmarshalTypeError "bool")
  end.

(** The least magnitude that no longer rounds to a finite [float64]: the
    largest one plus half the gap below it. *)
Definition float64_overflow : Z := 2 ^ 1024 - 2 ^ 970.

Definition fits_float64 (q : Qc) : Prop :=
  (- Qc_of_Z float64_overflow < q)%Qc ∧ (q < Qc_of_Z float64_overflow)%Qc.

(** A number that does not fit is an error; one that fits is kept as it is
    written, where [Unmarshal] rounds it to the nearest [float64]. *)
Definition float64_ : decoder Qc := λ cur v,
  match v with
  | JNull => Ok cur
  | JInt z =>
      if decide (fits_float64 (Qc_of_Z z)) then Ok (Qc_of_Z z)
      else Err (UnmarshalTypeError "float64")
  | JReal q =>
      if decide (fits_float64 q) then Ok q
      else Err (UnmarshalTypeError "float64")
  | _ => Err (UnmarshalTypeError "float64")
  end.

Definition int_ : decoder Z := λ cur v,
  match v with
  | JNull => Ok cur
  | JInt z =>
      if decide (- 2 ^ 63 <= z < 2 ^ 63) then Ok z
      else Err (UnmarshalTypeError "int")
  | _ => Err (UnmarshalTypeError "int")
  end.

(** Elements of a JSON array are decoded into the slots of the slice
    already there, and into zero values beyond them; the slice ends up
    as long as the array. *)
Fixpoint elements {T} (zero : T) (elem : decoder T)
    (cur : list T) (vs : list json) : result (list T) :=
  match vs with
  | [] => Ok []
  | v :: vs' =>
      match elem (hd zero cur) v with
      | Err e => Err e
      | Ok x =>
          match elements zero elem (tl cur) vs' with
          | Err e => Err e
          | Ok xs => Ok (x :: xs)
          end
      end
  end.

Definition slice_ {T} (name : string) (zero : T) (elem : decoder T)
    : decoder (list T) := λ cur v,
  match v with
  | JNull => Ok cur
  | JArr vs => elements zero elem cur vs
  | _ => Err (UnmarshalTypeError name)
  end.

(** A key selects the field whose name it equals, or else the one it
    equals letter case aside; the names of one struct of this program
    differ in more than case, so the two steps are one test. *)
Definition key_is (key name : string) : bool :=
  bool_decide (ToLower key = ToLower name).

(** Members of a JSON object are decoded in the order they are written,
    each into the field its key selects; a later member with the same key
    decodes into what the earlier one left. *)
Fixpoint members {T} (field : string → T → json → result T)
    (cur : T) (ms : list (string * json)) : result T :=
  match ms with
  | [] => Ok cur
  | (key, v) :: ms' =>
      match field key cur v with
      | Err e => Err e
      | Ok cur' => members field cur' ms'
      end
  end.

Definition struct_ {T} (name : string)
    (field : string → T → json → result T) : decoder T := λ cur v,
  match v with
  | JNull => Ok cur
  | JObj ms => members field cur ms
  | _ => Err (UnmarshalTypeError name)
  end.

(** Decode [v] into field [get] of [cur] and store it back with [set]. *)
Definition into {T F} (dec : decoder F) (get : T → F) (set : T → F → T)
    (cur : T) (v : json) : result T :=
  match dec (get cur) v with
  | Ok x => Ok (set cur x)
  | Err e => Err e
  end.

(** [json.Unmarshal data &target]. *)
Definition Unmarshal {T} (dec : decoder T) (data : file) (target : T)
    : result T :=
  match parse data with
  | Err e => Err e
  | Ok v => dec target v
  end.

End Json.

(* ===================================================================== *)
(** * Package models *)
(* ===================================================================== *)

Module models.

(** [type Severity string] *)
Definition Severity := string.

Definition SeverityCritical : Severity := "CRITICAL".
Definition SeverityHigh : Severity := "HIGH".
Definition SeverityMedium : Severity := "MEDIUM".
Definition SeverityLow : Severity := "LOW".
Definition SeverityInfo : Severity := "INFO".

Record Finding : Type := mkFinding {
  ID : string;
  Title : string;
  Description : string;
  Severity_ : Severity;
  Category : string;
  Location : string;
  CodeSnippet : string;
  Timestamp : Z;      (* time.Time; the zero time is 0 *)
  Remediation : string;
  Confidence : Qc
}.

(** The zero value of the struct. *)
Definition zero : Finding :=
  mkFinding "" "" "" "" "" "" "" 0 "" (Q2Qc 0).

End models.

(* ===================================================================== *)
(** * Package reporter: statistics *)
(* ===================================================================== *)

Module reporter.

Definition Critical : models.Severity := "CRITICAL".
Definition High : models.Severity := "HIGH".
Definition Medium : models.Severity := "MEDIUM".
Definition Low : models.Severity := "LOW".
Definition Info : models.Severity := "INFO".

Record Stats : Type := mkStats {
  TotalFindings : Z;
  CriticalCount : Z;
  HighCount : Z;
  MediumCount : Z;
  LowCount : Z;
  InfoCount : Z
}.

(** The body of the loop of [calculateStats]: the total is incremented,
    then the [switch] increments the counter of the first constant the
    severity equals; the [switch] has no [default]. *)
Definition count (stats : Stats) (finding : models.Finding) : Stats :=
  let '(mkStats t c h m l i) := stats in
  let t := t + 1 in
  let sev := models.Severity_ finding in
  if decide (sev = Critical) then mkStats t (c + 1) h m l i
  else if decide (sev = High) then mkStats t c (h + 1) m l i
  else if decide (sev = Medium) then mkStats t c h (m + 1) l i
  else if decide (sev = Low) then mkStats t c h m (l + 1) i
  else if decide (sev = Info) then mkStats t c h m l (i + 1)
  else mkStats t c h m l i.

Definition calculateStats (findings : list models.Finding) : Stats :=
  fold_left count findings (mkStats 0 0 0 0 0 0).

(** The sum of the five counters. *)
Definition severity_sum (s : Stats) : Z :=
  CriticalCount s + HighCount s + MediumCount s + LowCount s + InfoCount s.

(** The severity is one of the five constants. *)
Definition known (sev : models.Severity) : bool :=
  bool_decide (sev ∈ [Critical; High; Medium; Low; Info]).

End reporter.

(* ===================================================================== *)
(** * Package scanner *)
(* ===================================================================== *)

Module scanner.
Import Go.

Record Config : Type := mkConfig {
  TargetPath : string;
  ModelPath : string
}.

Record Scanner : Type := mkScanner { config : Config }.

Definition New (config : Config) : Scanner := mkScanner config.

(** [analyzeFile] has no body but [return nil, nil]. *)
Definition analyzeFile (s : Scanner) (fs : gmap string file) (path : string)
    : list models.Finding * option error :=
  ([], None).

(** One call of the function handed to [filepath.Walk]. *)
Record visit : Type := mkVisit {
  path : string;
  IsDir : bool;
  err : option error
}.

(** The function literal of [Scan]; [findings] is the variable it captures. *)
Definition walkFn (s : Scanner) (fs : gmap string file)
    (findings : list models.Finding) (v : visit)
    : list models.Finding * option error :=
  match err v with
  | Some e => (findings, Some e)
  | None =>
      if IsDir v then (findings, None)
      else
        match analyzeFile s fs (path v) with
        | (_, Some e) => (findings, Some (Wrapf ("analyzing " +:+ path v) e))
        | (fileFindings, None) => (findings ++ fileFindings, None)
        end
  end.

(** [filepath.Walk] calls the function on each entry of the tree in turn
    and stops at the first error it returns. *)
Fixpoint Walk (s : Scanner) (fs : gmap string file) (tree : list visit)
    (findings : list models.Finding) : list models.Finding * option error :=
  match tree with
  | [] => (findings, None)
  | v :: tree' =>
      match walkFn s fs findings v with
      | (findings', Some e) => (findings', Some e)
      | (findings', None) => Walk s fs tree' findings'
      end
  end.

(** [tree] is the sequence of entries under [TargetPath]. *)
Definition Scan (s : Scanner) (fs : gmap string file) (tree : list visit)
    : list models.Finding * option error :=
  Walk s fs tree [].

End scanner.

(* ===================================================================== *)
(** * Package ai: rules, classifier, detector *)
(* ===================================================================== *)

Module ai.
Import Go.

(** ** Rule *)
Module Rule.

Record t : Type := mk {
  ID : string;
  Name : string;
  Pattern : string;
  Severity : string;
  Category : string;
  Keywords : list string;
  Description : string
}.

Definition zero : t := mk "" "" "" "" "" [] "".

Definition set_ID (r : t) (x : string) : t :=
  mk x (Name r) (Pattern r) (Severity r) (Category r) (Keywords r) (Description r).
Definition set_Name (r : t) (x : string) : t :=
  mk (ID r) x (Pattern r) (Severity r) (Category r) (Keywords r) (Description r).
Definition set_Pattern (r : t) (x : string) : t :=
  mk (ID r) (Name r) x (Severity r) (Category r) (Keywords r) (Description r).
Definition set_Severity (r : t) (x : string) : t :=
  mk (ID r) (Name r) (Pattern r) x (Category r) (Keywords r) (Description r).
Definition set_Category (r : t) (x : string) : t :=
  mk (ID r) (Name r) (Pattern r) (Severity r) x (Keywords r) (Description r).
Definition set_Keywords (r : t) (x : list string) : t :=
  mk (ID r) (Name r) (Pattern r) (Severity r) (Category r) x (Description r).
Definition set_Description (r : t) (x : string) : t :=
  mk (ID r) (Name r) (Pattern r) (Severity r) (Category r) (Keywords r) x.

(** The fields by their [json] tags; a key that selects none is skipped. *)
Definition field (key : string) : t → json → result t :=
  if Json.key_is key "id" then Json.into Json.string_ ID set_ID
  else if Json.key_is key "name" then Json.into Json.string_ Name set_Name
  else if Json.key_is key "pattern" then Json.into Json.string_ Pattern set_Pattern
  else if Json.key_is key "severity" then Json.into Json.string_ Severity set_Severity
  else if Json.key_is key "category" then Json.into Json.string_ Category set_Category
  else if Json.key_is key "keywords" then
    Json.into (Json.slice_ "[]string" "" Json.string_) Keywords set_Keywords
  else if Json.key_is key "description" then
    Json.into Json.string_ Description set_Description
  else λ cur _, Ok cur.

Definition decode : Json.decoder t := Json.struct_ "ai.Rule" field.

(** [[]Rule] *)
Definition decode_slice : Json.decoder (list t) :=
  Json.slice_ "[]ai.Rule" zero decode.

End Rule.

(** ** ModelConfig *)
Module ModelConfig.

Record t : Type := mk {
  Threshold : Qc;
  BatchSize : Z;
  EnableCache : bool
}.

Definition zero : t := mk (Q2Qc 0) 0 false.

Definition field (key : string) : t → json → result t :=
  if Json.key_is key "threshold" then
    Json.into Json.float64_ Threshold (λ c x, mk x (BatchSize c) (EnableCache c))
  else if Json.key_is key "batchSize" then
    Json.into Json.int_ BatchSize (λ c x, mk (Threshold c) x (EnableCache c))
  else if Json.key_is key "enableCache" then
    Json.into Json.bool_ EnableCache (λ c x, mk (Threshold c) (BatchSize c) x)
  else λ cur _, Ok cur.

Definition decode : Json.decoder t := Json.struct_ "ai.ModelConfig" field.

End ModelConfig.

(** ** CategoryFeatures *)
Module CategoryFeatures.

Record t : Type := mk {
  Patterns : list string;
  Keywords : list string;
  Weights : list Qc;
  Threshold : Qc
}.

Definition zero : t := mk [] [] [] (Q2Qc 0).

End CategoryFeatures.

(** ** DetectorConfig *)
Module DetectorConfig.

Record t : Type := mk {
  Confidence : Qc;
  MaxFindings : Z
}.

Definition zero : t := mk (Q2Qc 0) 0.

Definition field (key : string) : t → json → result t :=
  if Json.key_is key "confidence" then
    Json.into Json.float64_ Confidence (λ c x, mk x (MaxFindings c))
  else if Json.key_is key "maxFindings" then
    Json.into Json.int_ MaxFindings (λ c x, mk (Confidence c) x)
  else λ cur _, Ok cur.

Definition decode : Json.decoder t := Json.struct_ "ai.DetectorConfig" field.

End DetectorConfig.

(** ** Classifier *)
Module Classifier.

Record t : Type := mk {
  modelPath : string;
  threshold : Qc;
  categories : list string;
  initialized : bool;
  modelConfig : ModelConfig.t;
  categoryData : gmap string CategoryFeatures.t
}.

Definition set_initialized (c : t) (x : bool) : t :=
  mk (modelPath c) (threshold c) (categories c) x (modelConfig c) (categoryData c).
Definition set_categoryData (c : t) (x : gmap string CategoryFeatures.t) : t :=
  mk (modelPath c) (threshold c) (categories c) (initialized c) (modelConfig c) x.

(** The local [config] of [loadConfig]. *)
Record configFile : Type := mkConfigFile {
  ModelSettings : ModelConfig.t;
  Categories : list string
}.

Definition configFile_field (key : string) : configFile → json → result configFile :=
  if Json.key_is key "modelSettings" then
    Json.into ModelConfig.decode ModelSettings (λ c x, mkConfigFile x (Categories c))
  else if Json.key_is key "categories" then
    Json.into (Json.slice_ "[]string" "" Json.string_) Categories
      (λ c x, mkConfigFile (ModelSettings c) x)
  else λ cur _, Ok cur.

Definition decode_configFile : Json.decoder configFile :=
  Json.struct_ "struct" configFile_field.

Definition loadConfig (fs : gmap string file) (c : t) (path : string)
    : t * option error :=
  match ReadFile fs path with
  | Err e => (c, Some e)
  | Ok data =>
      match Json.Unmarshal decode_configFile data (mkConfigFile ModelConfig.zero []) with
      | Err e => (c, Some e)
      | Ok config =>
          (mk (modelPath c)
              (ModelConfig.Threshold (ModelSettings config))
              (Categories config)
              (initialized c)
              (ModelSettings config)
              (categoryData c),
           None)
      end
  end.

(** The local [rulesData] of [loadCategories]. *)
Definition rulesData_field (key : string) : list Rule.t → json → result (list Rule.t) :=
  if Json.key_is key "rules" then Rule.decode_slice else λ cur _, Ok cur.

Definition decode_rulesData : Json.decoder (list Rule.t) :=
  Json.struct_ "struct" rulesData_field.

(** The body of the loop of [loadCategories]; a category not yet in the map
    reads as the zero value. *)
Definition addRule (c : t) (rule : Rule.t) : t :=
  let features := default CategoryFeatures.zero (categoryData c !! Rule.Category rule) in
  let features :=
    CategoryFeatures.mk
      (CategoryFeatures.Patterns features ++ [Rule.Pattern rule])
      (CategoryFeatures.Keywords features ++ Rule.Keywords rule)
      (CategoryFeatures.Weights features ++ [Q2Qc 1])
      (threshold c) in
  set_categoryData c (<[Rule.Category rule := features]> (categoryData c)).

Definition loadCategories (fs : gmap string file) (c : t) (path : string)
    : t * option error :=
  match ReadFile fs path with
  | Err e => (c, Some e)
  | Ok data =>
      match Json.Unmarshal decode_rulesData data [] with
      | Err e => (c, Some e)
      | Ok rules => (fold_left addRule rules c, None)
      end
  end.

Definition initialize (fs : gmap string file) (c : t) : t * option error :=
  let configPath := Join (modelPath c) "config.json" in
  match loadConfig fs c configPath with
  | (c, Some e) => (c, Some (Wrapf "failed to load config" e))
  | (c, None) =>
      let categoryPath := Join (modelPath c) "rules.json" in
      match loadCategories fs c categoryPath with
      | (c, Some e) => (c, Some (Wrapf "failed to load categories" e))
      | (c, None) => (set_initialized c true, None)
      end
  end.

(** The pattern loop of [calculateScore]: [i] is the index of the head of
    [patterns] in [features.Patterns]; [weights[i]] panics out of range. *)
Fixpoint patternScore (snippet : string) (patterns : list string)
    (weights : list Qc) (i : nat) (score : Qc) : outcome Qc :=
  match patterns with
  | [] => Returns score
  | pattern :: patterns' =>
      if Contains snippet pattern then
        match weights !! i with
        | Some w => patternScore snippet patterns' weights (S i) (score + w)%Qc
        | None => Panics "index out of range"
        end
      else patternScore snippet patterns' weights (S i) score
  end.

(** The keyword loop of [calculateScore]. *)
Definition keywordScore (description : string) (keywords : list string)
    (score : Qc) : Qc :=
  fold_left
    (λ score keyword,
       if Contains (ToLower description) (ToLower keyword)
       then (score + half)%Qc else score)
    keywords score.

Definition maxScore (features : CategoryFeatures.t) : Qc :=
  (Qc_of_Z (Z.of_nat (length (CategoryFeatures.Patterns features)))
   + Qc_of_Z (Z.of_nat (length (CategoryFeatures.Keywords features))) * half)%Qc.

Definition calculateScore (finding : models.Finding)
    (features : CategoryFeatures.t) : outcome Qc :=
  score ← patternScore (models.CodeSnippet finding)
             (CategoryFeatures.Patterns features)
             (CategoryFeatures.Weights features) 0 (Q2Qc 0);
  let score := keywordScore (models.Description finding)
                 (CategoryFeatures.Keywords features) score in
  let maxScore := maxScore features in
  if bool_decide (Q2Qc 0 < maxScore)%Qc
  then Returns (score / maxScore)%Qc
  else Returns score.

Record categoryScore : Type := mkCategoryScore {
  category : string;
  score : Qc
}.

(** The [less] handed to [sort.Slice]. *)
Definition less (a b : categoryScore) : bool :=
  bool_decide (score b < score a)%Qc.

Definition getBestCategory (range : iteration Qc) (scores : gmap string Qc)
    : string * Qc :=
  let sorted := fold_left
                  (λ sorted '(category, score),
                     sorted ++ [mkCategoryScore category score])
                  (range scores) [] in
  let sorted := Slice less sorted in
  match sorted with
  | first :: _ => (category first, score first)
  | [] => ("", Q2Qc 0)
  end.

(** The first loop of [Classify]. *)
Fixpoint scoreAll (finding : models.Finding)
    (visit : list (string * CategoryFeatures.t)) (scores : gmap string Qc)
    : outcome (gmap string Qc) :=
  match visit with
  | [] => Returns scores
  | (category, features) :: visit' =>
      score ← calculateScore finding features;
      scoreAll finding visit' (<[category := score]> scores)
  end.

(** [finding] is updated in place; the finding returned is what the caller
    holds afterwards. *)
Definition Classify (range1 : iteration CategoryFeatures.t)
    (range2 : iteration Qc) (c : t) (finding : models.Finding)
    : outcome (models.Finding * option error) :=
  if negb (initialized c)
  then Returns (finding, Some (Errorf "classifier not initialized"))
  else
    scores ← scoreAll finding (range1 (categoryData c)) ∅;
    let '(bestCategory, bestScore) := getBestCategory range2 scores in
    if bool_decide (threshold c ≤ bestScore)%Qc then
      Returns
        (models.mkFinding
           (models.ID finding) (models.Title finding)
           (models.Description finding) (models.Severity_ finding)
           bestCategory
           (models.Location finding) (models.CodeSnippet finding)
           (models.Timestamp finding) (models.Remediation finding)
           bestScore,
         None)
    else Returns (finding, None).


Definition UpdateThreshold (c : t) (threshold : Qc) : t :=
  mk (modelPath c) threshold (categories c) (initialized c)
     (modelConfig c) (categoryData c).

End Classifier.

(** Both branches of the constructor return [c]: the error of [initialize]
    is dropped. *)
Definition NewClassifier (fs : gmap string file) (modelPath : string)
    : Classifier.t :=
  let c := Classifier.mk modelPath (Q2Qc (4 # 5)) [] false ModelConfig.zero ∅ in
  match Classifier.initialize fs c with
  | (c, Some _) => c
  | (c, None) => c
  end.

(** [loadRules] decodes the file into a [[]Rule]. *)
Definition loadRules (fs : gmap string file) (path : string)
    : result (list Rule.t) :=
  match ReadFile fs path with
  | Err e => Err e
  | Ok data => Json.Unmarshal Rule.decode_slice data []
  end.

(** [loadConfig] of the detector. *)
Definition loadConfig (fs : gmap string file) (path : string)
    : result DetectorConfig.t :=
  match ReadFile fs path with
  | Err e => Err e
  | Ok data => Json.Unmarshal DetectorConfig.decode data DetectorConfig.zero
  end.

(** ** Detector *)
Module Detector.

Record t : Type := mk {
  modelPath : string;
  confidence : Qc;
  maxFindings : Z;
  initialized : bool;
  rules : list Rule.t
}.

Definition set_rules (d : t) (x : list Rule.t) : t :=
  mk (modelPath d) (confidence d) (maxFindings d) (initialized d) x.
Definition set_initialized (d : t) (x : bool) : t :=
  mk (modelPath d) (confidence d) (maxFindings d) x (rules d).

(** The first block of [initialize]: a rules file that is absent is
    passed over. *)
Definition initRules (fs : gmap string file) (d : t) : t * option error :=
  let rulesPath := Join (modelPath d) "rules.json" in
  if Stat_ok fs rulesPath then
    match loadRules fs rulesPath with
    | Err e => (d, Some (Wrapf "failed to load rules" e))
    | Ok rules => (set_rules d rules, None)
    end
  else (d, None).

(** The second block: the same for the configuration file. *)
Definition initConfig (fs : gmap string file) (d : t) : t * option error :=
  let configPath := Join (modelPath d) "config.json" in
  if Stat_ok fs configPath then
    match loadConfig fs configPath with
    | Err e => (d, Some (Wrapf "failed to load config" e))
    | Ok config =>
        (mk (modelPath d) (DetectorConfig.Confidence config)
            (DetectorConfig.MaxFindings config) (initialized d) (rules d),
         None)
    end
  else (d, None).

Definition initialize (fs : gmap string file) (d : t) : t * option error :=
  match initRules fs d with
  | (d, Some e) => (d, Some e)
  | (d, None) =>
      match initConfig fs d with
      | (d, Some e) => (d, Some e)
      | (d, None) => (set_initialized d true, None)
      end
  end.

(** The finding is passed by value; the changed copy is returned. *)
Definition enhanceFinding (d : t) (finding : models.Finding) : models.Finding :=
  let description := models.Description finding +:+ " (AI Verified)" in
  let remediation :=
    if decide (models.Remediation finding = "")
    then "AI suggested: Review and sanitize all inputs"
    else models.Remediation finding in
  models.mkFinding
    (models.ID finding) (models.Title finding) description
    (models.Severity_ finding) (models.Category finding)
    (models.Location finding) (models.CodeSnippet finding)
    (models.Timestamp finding) remediation (models.Confidence finding).

(** The finding [detectAdditionalIssues] builds for a rule; the fields the
    literal leaves out are zero. *)
Definition ruleFinding (rule : Rule.t) : models.Finding :=
  models.mkFinding
    ("AI-" +:+ Rule.ID rule) (Rule.Name rule) (Rule.Description rule)
    (Rule.Severity rule) (Rule.Category rule)
    "" "" 0 "" (Q2Qc 0).

Definition detectAdditionalIssues (d : t) (findings : list models.Finding)
    : list models.Finding :=
  fold_left
    (λ additionalFindings rule,
       if decide (Rule.Pattern rule ≠ "")
       then additionalFindings ++ [ruleFinding rule]
       else additionalFindings)
    (rules d) [].

Definition prioritizeFindings (d : t) (findings : list models.Finding)
    : outcome (list models.Finding) :=
  if bool_decide (maxFindings d < Z.of_nat (length findings))
  then slice_to findings (maxFindings d)
  else Returns findings.

Definition Analyze (d : t) (findings : list models.Finding)
    : outcome (list models.Finding * option error) :=
  if negb (initialized d)
  then Returns (findings, Some (Errorf "detector not properly initialized"))
  else
    let enhancedFindings :=
      fold_left
        (λ enhancedFindings finding,
           enhancedFindings ++ [enhanceFinding d finding])
        findings [] in
    let additionalFindings := detectAdditionalIssues d findings in
    let enhancedFindings := enhancedFindings ++ additionalFindings in
    enhancedFindings ← prioritizeFindings d enhancedFindings;
    Returns (enhancedFindings, None).

End Detector.

(** The constructor logs the error of [initialize] and returns [d] all
    the same. *)
Definition NewDetector (fs : gmap string file) (modelPath : string)
    : Detector.t :=
  let d := Detector.mk modelPath (Q2Qc (3 # 4)) 100 false [] in
  match Detector.initialize fs d with
  | (d, Some _) => d
  | (d, None) => d
  end.

End ai.

(* ===================================================================== *)
(** * The files shipped with the repository *)
(* ===================================================================== *)

Module configs.
Import Go.

(** A double quote. *)
Definition dq : string := String (ascii_of_nat 34) EmptyString.

Definition rule (id name pattern severity category : string)
    (keywords : list string) (description : string) : json :=
  JObj [("id", JStr id); ("name", JStr name); ("pattern", JStr pattern);
        ("severity", JStr severity); ("category", JStr category);
        ("keywords", JArr (JStr <$> keywords));
        ("description", JStr description)].

(** configs/rules.json *)
Definition rules_json : json :=
  JObj [("rules", JArr [
    rule "RULE-001" "SQL Injection Detection"
         "(?i)(SELECT|INSERT|UPDATE|DELETE).*\$\{"
         "HIGH" "Injection" ["sql"; "database"; "query"]
         "Potential SQL injection vulnerability detected";
    rule "RULE-002" "Hardcoded Credentials"
         ("(?i)(password|secret|key)\s*=\s*['" +:+ dq +:+ "]\w+['" +:+ dq +:+ "]")
         "CRITICAL" "Security" ["credentials"; "password"; "secret"]
         "Hardcoded credentials detected in code";
    rule "RULE-003" "Insecure File Operations"
         "(?i)os\.Open\(.*\)"
         "MEDIUM" "FileSystem" ["file"; "path"; "traversal"]
         "Potential file operation without proper validation"
  ])].

(** The rules of configs/rules.json. *)
Definition rules : list ai.Rule.t :=
  [ai.Rule.mk "RULE-001" "SQL Injection Detection"
     "(?i)(SELECT|INSERT|UPDATE|DELETE).*\$\{"
     "HIGH" "Injection" ["sql"; "database"; "query"]
     "Potential SQL injection vulnerability detected";
   ai.Rule.mk "RULE-002" "Hardcoded Credentials"
     ("(?i)(password|secret|key)\s*=\s*['" +:+ dq +:+ "]\w+['" +:+ dq +:+ "]")
     "CRITICAL" "Security" ["credentials"; "password"; "secret"]
     "Hardcoded credentials detected in code";
   ai.Rule.mk "RULE-003" "Insecure File Operations"
     "(?i)os\.Open\(.*\)"
     "MEDIUM" "FileSystem" ["file"; "path"; "traversal"]
     "Potential file operation without proper validation"].

End configs.

(* ===================================================================== *)
(** * Model directories and findings used as examples *)
(* ===================================================================== *)

Module examples.
Import Go.

(** A config.json in the shape [Classifier.loadConfig] reads. *)
Definition config_json (threshold : Qc) : json :=
  JObj [("modelSettings",
         JObj [("threshold", JReal threshold); ("batchSize", JInt 32);
               ("enableCache", JBool true)]);
        ("categories",
         JArr [JStr "Injection"; JStr "Security"; JStr "FileSystem"])].

(** A model directory with the shipped rules and threshold 0.8. *)
Definition model : gmap string file :=
  {[ "model/config.json" := JsonText (config_json (Q2Qc (4 # 5)));
     "model/rules.json" := JsonText configs.rules_json ]}.

(** A finding that holds the text of the SQL pattern and its keywords. *)
Definition sql_finding : models.Finding :=
  models.mkFinding "F-1" "Query built from input"
    "SQL query against the Database" "HIGH" "" "db.go"
    "re := `(?i)(SELECT|INSERT|UPDATE|DELETE).*\$\{`" 0 "" (Q2Qc 0).

(** Two rules with the same pattern in two categories, threshold 0.5. *)
Definition tie_rules_json : json :=
  JObj [("rules", JArr [
    configs.rule "T-1" "Token in code" "token" "HIGH" "Auth" [] "token";
    configs.rule "T-2" "Token in code" "token" "HIGH" "Crypto" [] "token"])].

Definition tie_model : gmap string file :=
  {[ "model/config.json" := JsonText (config_json (Q2Qc (1 # 2)));
     "model/rules.json" := JsonText tie_rules_json ]}.

Definition token_finding : models.Finding :=
  models.mkFinding "F-2" "Token" "literal" "HIGH" "" "a.go"
    "token := x" 0 "" (Q2Qc 0).

(** The first scenario of the specification: the SQL rule is in the model
    directory, and the scanned tree holds one file with the query. *)
Definition scenario_rule : json :=
  configs.rule "RULE-001" "SQL Injection Detection" "(?i)(SELECT|INSERT).*\$\{"
    "HIGH" "Injection" ["sql"; "query"] "Potential SQL injection".

Definition scenario_fs : gmap string file :=
  {[ "model/rules.json" := JsonText (JArr [scenario_rule]);
     "src/query.txt" := OtherText "SELECT * FROM t WHERE id=${id}" ]}.

Definition scenario_tree : list scanner.visit :=
  [scanner.mkVisit "src" true None; scanner.mkVisit "src/query.txt" false None].

End examples.

(* ===================================================================== *)
(** * Notions used in the statements *)
(* ===================================================================== *)

Import Go.

(** The invariant of a category profile: one weight per pattern. *)
Definition aligned (features : ai.CategoryFeatures.t) : Prop :=
  length (ai.CategoryFeatures.Weights features)
  = length (ai.CategoryFeatures.Patterns features).

(** What [loadCategories] maintains: every weight is 1.0, there is one per
    pattern, and there is at least one pattern. *)
Definition unit_weights (features : ai.CategoryFeatures.t) : Prop :=
  ai.CategoryFeatures.Weights features
  = replicate (length (ai.CategoryFeatures.Patterns features)) (Q2Qc 1)
  ∧ ai.CategoryFeatures.Patterns features ≠ [].

(** Every profile of the classifier is aligned, so that [Weights[i]] is
    always in range. *)
Definition well_formed (c : ai.Classifier.t) : Prop :=
  ∀ category features,
    ai.Classifier.categoryData c !! category = Some features → aligned features.

(** The score [calculateScore] returns (0 where it panics). *)
Definition normalizedScore (finding : models.Finding)
    (features : ai.CategoryFeatures.t) : Qc :=
  match ai.Classifier.calculateScore finding features with
  | Returns score => score
  | Panics _ => Q2Qc 0
  end.

(** The normalized score of every category of the classifier. *)
Definition scoresOf (c : ai.Classifier.t) (finding : models.Finding)
    : gmap string Qc :=
  normalizedScore finding <$> ai.Classifier.categoryData c.

(** [category] is a category of maximal score [s] in [scores]; over no
    category at all, the winner is the empty name with score 0. *)
Definition wins (scores : gmap string Qc) (category : string) (s : Qc) : Prop :=
  (scores = ∅ ∧ category = "" ∧ s = Q2Qc 0)
  ∨ (scores !! category = Some s
     ∧ ∀ other s', scores !! other = Some s' → (s' ≤ s)%Qc).

(** The finding with its category and confidence replaced. *)
Definition reclassified (finding : models.Finding) (category : string)
    (confidence : Qc) : models.Finding :=
  models.mkFinding
    (models.ID finding) (models.Title finding) (models.Description finding)
    (models.Severity_ finding) category (models.Location finding)
    (models.CodeSnippet finding) (models.Timestamp finding)
    (models.Remediation finding) confidence.

(** Two orders of visiting a map: the one of [map_to_list], and its
    reverse. *)
Definition forwards {V} : iteration V := map_to_list.
Definition backwards {V} : iteration V := λ m, reverse (map_to_list m).

(** The rules file holding [rules], in the shape of configs/rules.json. *)
Definition encode (rule : ai.Rule.t) : json :=
  configs.rule (ai.Rule.ID rule) (ai.Rule.Name rule) (ai.Rule.Pattern rule)
    (ai.Rule.Severity rule) (ai.Rule.Category rule) (ai.Rule.Keywords rule)
    (ai.Rule.Description rule).

(** A source that cannot be loaded: reading it or decoding it fails. *)
Definition unloadable {T} (dec : Json.decoder T) (zero : T)
    (fs : gmap string file) (path : string) : Prop :=
  match ReadFile fs path with
  | Err _ => True
  | Ok data => is_Ok (Json.Unmarshal dec data zero) = false
  end.

(** The number of findings of one severity. *)
Definition tally (severity : models.Severity)
    (findings : list models.Finding) : Z :=
  Z.of_nat (length (filter (λ f, models.Severity_ f = severity) findings)).

(** A source that is present and cannot be loaded. *)
Definition broken {T} (dec : Json.decoder T) (zero : T)
    (fs : gmap string file) (path : string) : Prop :=
  Stat_ok fs path = true ∧ unloadable dec zero fs path.

(* ===================================================================== *)
(** * Package version *)
(* ===================================================================== *)

Module version.

Record Info : Type := mkInfo {
  Version : string;
  GitCommit : string;
  BuildTime : string;
  GoVersion : string
}.

(** The four package variables are set when the program is linked; [build]
    holds their values. *)
Definition GetVersion (build : Info) : Info :=
  mkInfo (Version build) (GitCommit build) (BuildTime build) (GoVersion build).

Definition String (i : Info) : string :=
  "Version: " +:+ Version i +:+ "
Git Commit: " +:+ GitCommit i +:+ "
Build Time: " +:+ BuildTime i +:+ "
Go Version: " +:+ GoVersion i.

End version.

(* ===================================================================== *)
(** * html/template: what [Parse] checks of the functions *)
(* ===================================================================== *)

Module template.
Import Go.

(** An operand of a command: a field chain such as [.SummaryStats.HighCount],
    the name of a function, or a string constant. *)
Inductive operand : Type :=
| Field (chain : list string)
| Func (name : string)
| Const (text : string).

(** A pipeline is a sequence of commands, a command a sequence of operands. *)
Definition pipeline : Type := list (list operand).

(** The actions of a template, in the order of the text; the text between
    them plays no part in parsing. *)
Inductive action : Type :=
| Print (p : pipeline)
| Range (p : pipeline)
| If (p : pipeline)
| End_.

Definition pipeline_of (a : action) : pipeline :=
  match a with
  | Print p | Range p | If p => p
  | End_ => []
  end.

(** The functions every template has. *)
Definition builtins : list string :=
  ["and"; "call"; "html"; "index"; "slice"; "js"; "len"; "not"; "or";
   "print"; "printf"; "println"; "urlquery";
   "eq"; "ge"; "gt"; "le"; "lt"; "ne"].

(** The names of the functions an action calls, in order. *)
Definition functions (a : action) : list string :=
  omap (λ o, match o with Func name => Some name | _ => None end)
       (concat (pipeline_of a)).

(** [template.New(name).Funcs(funcs).Parse(text)]: the parser stops at the
    first function that is neither built in nor in [funcs]. *)
Definition Parse (funcs : list string) (text : list action)
    : result (list action) :=
  match filter (λ name, name ∉ builtins ++ funcs) (text ≫= functions) with
  | [] => Ok text
  | name :: _ =>
      Err (Errorf ("function " +:+ configs.dq +:+ name +:+ configs.dq
                   +:+ " not defined"))
  end.

End template.

(* ===================================================================== *)
(** * Package reporter: reports *)
(* ===================================================================== *)

Module reporting.
Import Go.

Record Config : Type := mkConfig {
  Version : string;
  RulesUsed : list string;
  ScanType : string;
  AIEnabled : bool;
  TimeoutSecs : Z
}.

Record Report : Type := mkReport {
  ScanID : string;
  Timestamp : Z;
  Target : string;
  Findings : list models.Finding;
  SummaryStats : reporter.Stats;
  ScanDuration : string;
  ScannerConfig : Config
}.

Record Reporter : Type := mkReporter {
  OutputFormat : string;
  OutputPath : string
}.

Definition New (format path : string) : Reporter := mkReporter format path.

(** What the clock and the operating system answer: the two readings of
    [time.Now] in [createReport], the text of [time.Since], and the results
    of [os.Create], [Encoder.Encode] and [Template.Execute]. *)
Record env : Type := mkEnv {
  now_id : Z;
  now_stamp : Z;
  since : Z → string;
  create : string → option error;
  encode : Report → option error;
  execute : Report → option error
}.

(** What a call does to the disk. *)
Inductive event : Type :=
| Created (path : string)                   (* created, or cut to length 0 *)
| Written (path : string) (report : Report) (* the report written to it *).

Definition createReport (w : env) (r : Reporter)
    (findings : list models.Finding) (config : Config) (target : string)
    (duration : Z) : Report :=
  let stats := reporter.calculateStats findings in
  mkReport ("SCAN-" +:+ pretty (now_id w)) (now_stamp w) target findings
           stats (since w duration) config.

Definition generateJSON (w : env) (r : Reporter) (report : Report)
    : list event * option error :=
  match create w (OutputPath r) with
  | Some e => ([], Some (Wrapf "failed to create report file" e))
  | None =>
      match encode w report with
      | Some e =>
          ([Created (OutputPath r)], Some (Wrapf "failed to encode report" e))
      | None => ([Created (OutputPath r); Written (OutputPath r) report], None)
      end
  end.

(** The actions of [htmlTemplate]. *)
Definition htmlTemplate : list template.action :=
  let field chain := template.Print [[template.Field chain]] in
  [field ["ScanID"]; field ["Target"]; field ["Timestamp"];
   field ["ScanDuration"];
   field ["SummaryStats"; "TotalFindings"];
   field ["SummaryStats"; "CriticalCount"];
   field ["SummaryStats"; "HighCount"];
   field ["SummaryStats"; "MediumCount"];
   field ["SummaryStats"; "LowCount"];
   field ["SummaryStats"; "InfoCount"];
   template.Range [[template.Field ["Findings"]]];
   template.Print [[template.Field ["Severity"]];
                   [template.Func "printf"; template.Const "%s"];
                   [template.Func "toLowerCase"]];
   field ["Title"]; field ["Severity"]; field ["Category"];
   field ["Location"]; field ["Description"];
   template.If [[template.Field ["CodeSnippet"]]];
   field ["CodeSnippet"];
   template.End_;
   template.If [[template.Field ["Remediation"]]];
   field ["Remediation"];
   template.End_;
   template.End_].

Definition generateHTML (w : env) (r : Reporter) (report : Report)
    : list event * option error :=
  match template.Parse [] htmlTemplate with
  | Err e => ([], Some (Wrapf "failed to parse HTML template" e))
  | Ok tmpl =>
      match create w (OutputPath r) with
      | Some e => ([], Some (Wrapf "failed to create report file" e))
      | None =>
          match execute w report with
          | Some e =>
              ([Created (OutputPath r)],
               Some (Wrapf "failed to generate HTML report" e))
          | None =>
              ([Created (OutputPath r); Written (OutputPath r) report], None)
          end
      end
  end.

Definition Generate (w : env) (r : Reporter)
    (findings : list models.Finding) (config : Config) (target : string)
    (duration : Z) : list event * option error :=
  let report := createReport w r findings config target duration in
  if decide (OutputFormat r = "json") then generateJSON w r report
  else if decide (OutputFormat r = "html") then generateHTML w r report
  else ([], Some (Errorf ("unsupported format: " +:+ OutputFormat r))).

End reporting.

(* ===================================================================== *)
(** * Command scanner: [main] *)
(* ===================================================================== *)

Module cmd.
Import Go.

(** The flags after [flag.Parse]. *)
Record flags : Type := mkFlags {
  targetPath : string;
  modelPath : string;
  outputFormat : string;
  outputPath : string;
  showVersion : bool
}.

(** The flags of a command line that sets none. *)
Definition defaults : flags := mkFlags "." "" "json" "security-report" false.

(** How [main] ends. *)
Inductive ending : Type :=
| Shown (info : string)               (* the version was asked for *)
| Fatal (msg : string) (e : error)    (* log.Fatalf *)
| Panicked (msg : string)
| Generated (path : string).          (* the report was written *)

(** [tree] is what [filepath.Walk] finds under the target path, [start] the
    reading of [time.Now] taken before the report is generated. *)
Definition main (build : version.Info) (w : reporting.env) (start : Z)
    (fs : gmap string file) (tree : list scanner.visit) (args : flags)
    : list reporting.event * ending :=
  if showVersion args
  then ([], Shown (version.String (version.GetVersion build)))
  else
    let s := scanner.New (scanner.mkConfig (targetPath args) (modelPath args)) in
    let detector := ai.NewDetector fs (modelPath args) in
    match scanner.Scan s fs tree with
    | (_, Some e) => ([], Fatal "Scan failed" e)
    | (findings, None) =>
        match ai.Detector.Analyze detector findings with
        | Panics msg => ([], Panicked msg)
        | Returns (_, Some e) => ([], Fatal "AI analysis failed" e)
        | Returns (aiResults, None) =>
            let vInfo := version.GetVersion build in
            let config :=
              reporting.mkConfig (version.Version vInfo)
                ["SEC-001"; "SEC-002"] "Security Scan" true 30 in
            let startTime := start in
            let r := reporting.New (outputFormat args)
                       (outputPath args +:+ "." +:+ outputFormat args) in
            match reporting.Generate w r aiResults config (targetPath args)
                    startTime with
            | (events, Some e) => (events, Fatal "Report generation failed" e)
            | (events, None) =>
                (events,
                 Generated (outputPath args +:+ "." +:+ outputFormat args))
            end
        end
    end.

End cmd.

(* ===================================================================== *)
(** * Notions used in the further properties *)
(* ===================================================================== *)

(** The profile with its own threshold replaced. *)
Definition retune (threshold : Qc) (features : ai.CategoryFeatures.t)
    : ai.CategoryFeatures.t :=
  ai.CategoryFeatures.mk
    (ai.CategoryFeatures.Patterns features)
    (ai.CategoryFeatures.Keywords features)
    (ai.CategoryFeatures.Weights features)
    threshold.

(** The profile [old] after the rules [rules] of its category have been
    folded in: their patterns, their keywords, and a weight 1.0 each. *)
Definition extend (old : ai.CategoryFeatures.t) (threshold : Qc)
    (rules : list ai.Rule.t) : ai.CategoryFeatures.t :=
  ai.CategoryFeatures.mk
    (ai.CategoryFeatures.Patterns old ++ (ai.Rule.Pattern <$> rules))
    (ai.CategoryFeatures.Keywords old ++ (rules ≫= ai.Rule.Keywords))
    (ai.CategoryFeatures.Weights old ++ replicate (length rules) (Q2Qc 1))
    threshold.

(** The rules of one category, in the order of the file. *)
Definition rules_of (category : string) (rules : list ai.Rule.t)
    : list ai.Rule.t :=
  filter (λ rule, ai.Rule.Category rule = category) rules.

(** No key of the object selects the field [name]. *)
Definition lacks (name : string) (ms : list (string * json)) : Prop :=
  Forall (λ kv : string * json, Json.key_is kv.1 name = false) ms.




(** No pattern of the profile is in the snippet of the finding and no
    keyword in its description. *)
Definition unmatched (finding : models.Finding)
    (features : ai.CategoryFeatures.t) : Prop :=
  Forall (λ p, Contains (models.CodeSnippet finding) p = false)
    (ai.CategoryFeatures.Patterns features)
  ∧ Forall (λ k, Contains (ToLower (models.Description finding)) (ToLower k)
                 = false)
      (ai.CategoryFeatures.Keywords features).

(** The first error a walk hands to its function, if any. *)
Definition first_error (tree : list scanner.visit) : option error :=
  head (omap scanner.err tree).

(* ===================================================================== *)
(** * Statistics ([reporter.calculateStats]) *)
(* ===================================================================== *)

Section Stats.
Import reporter.

Lemma count_total stats finding :
  TotalFindings (count stats finding) = TotalFindings stats + 1.
Proof.
  destruct stats; unfold count; cbn.
  repeat case_decide; reflexivity.
Qed.

Lemma count_known stats finding :
  known (models.Severity_ finding) = true →
  severity_sum (count stats finding) = severity_sum stats + 1.
Proof.
  intros Hk. apply bool_decide_eq_true in Hk.
  destruct stats; unfold count, severity_sum; cbn.
  rewrite !elem_of_cons, elem_of_nil in Hk.
  repeat case_decide; cbn; try lia. tauto.
Qed.

Lemma count_unknown stats finding :
  known (models.Severity_ finding) = false →
  severity_sum (count stats finding) = severity_sum stats.
Proof.
  intros Hk. apply bool_decide_eq_false in Hk.
  destruct stats; unfold count, severity_sum; cbn.
  rewrite !elem_of_cons, elem_of_nil in Hk.
  repeat case_decide; cbn; try lia; tauto.
Qed.

Lemma fold_count_total findings : ∀ stats,
  TotalFindings (fold_left count findings stats)
  = TotalFindings stats + Z.of_nat (length findings).
Proof.
  induction findings as [|f fs IH]; intros stats; cbn [fold_left length].
  - lia.
  - rewrite IH, count_total. lia.
Qed.

Lemma fold_count_sum findings : ∀ stats,
  severity_sum (fold_left count findings stats)
  = severity_sum stats
    + Z.of_nat (length (filter (λ f, known (models.Severity_ f) = true) findings)).
Proof.
  induction findings as [|f fs IH]; intros stats; cbn [fold_left].
  - cbn. lia.
  - rewrite IH, filter_cons.
    destruct (known (models.Severity_ f)) eqn:Hk.
    + rewrite count_known by done. rewrite decide_True by done.
      cbn [length]. lia.
    + rewrite count_unknown by done. rewrite decide_False by done. lia.
Qed.

(** The five counters add up to the number of findings whose severity is
    one of the five constants. *)
Lemma calculateStats_sum findings :
  severity_sum (calculateStats findings)
  = Z.of_nat (length (filter (λ f, known (models.Severity_ f) = true) findings)).
Proof. unfold calculateStats. rewrite fold_count_sum. reflexivity. Qed.

(** C8, as stated, fails: a finding whose severity is not one of the five
    constants (here the zero value, with the empty severity) is counted in
    the total and in none of the five counters. *)
Lemma calculateStats_sum_not_total :
  TotalFindings (calculateStats [models.zero]) = 1
  ∧ severity_sum (calculateStats [models.zero]) = 0
  ∧ severity_sum (calculateStats [models.zero])
    ≠ TotalFindings (calculateStats [models.zero]).
Proof. repeat split; vm_compute; congruence. Qed.

(** What one finding adds to a counter. *)
Lemma count_step stats finding :
  count stats finding
  = mkStats (TotalFindings stats + 1)
      (CriticalCount stats + tally Critical [finding])
      (HighCount stats + tally High [finding])
      (MediumCount stats + tally Medium [finding])
      (LowCount stats + tally Low [finding])
      (InfoCount stats + tally Info [finding]).
Proof.
  destruct stats as [t c h m l i]. unfold count, tally. cbn [TotalFindings
    CriticalCount HighCount MediumCount LowCount InfoCount].
  rewrite !filter_cons, !filter_nil.
  unfold Critical, High, Medium, Low, Info in *.
  repeat case_decide; try congruence; cbn [length]; f_equal; lia.
Qed.

Lemma tally_cons severity finding findings :
  tally severity (finding :: findings)
  = tally severity [finding] + tally severity findings.
Proof.
  unfold tally. rewrite !filter_cons, filter_nil.
  case_decide; cbn [length]; lia.
Qed.

Lemma fold_count_tally findings : ∀ stats,
  fold_left count findings stats
  = mkStats (TotalFindings stats + Z.of_nat (length findings))
      (CriticalCount stats + tally Critical findings)
      (HighCount stats + tally High findings)
      (MediumCount stats + tally Medium findings)
      (LowCount stats + tally Low findings)
      (InfoCount stats + tally Info findings).
Proof.
  induction findings as [|f fs IH]; intros stats.
  - destruct stats. unfold tally. cbn. f_equal; lia.
  - cbn [fold_left]. rewrite IH, count_step.
    cbn [TotalFindings CriticalCount HighCount MediumCount LowCount InfoCount].
    rewrite !(tally_cons _ f fs). cbn [length]. f_equal; lia.
Qed.

(** C8 (amended): for every list of findings the total equals the length of
    the list and each of the five counters is the number of findings of its
    severity; so the five counters sum to the number of findings whose
    severity is one of CRITICAL, HIGH, MEDIUM, LOW, INFO -- to the total
    when every finding has one of them -- and a finding with any other
    severity is counted in the total only.  The function only reads the
    list. *)
Theorem calculateStats_counts findings :
  calculateStats findings
  = mkStats (Z.of_nat (length findings))
      (tally Critical findings) (tally High findings)
      (tally Medium findings) (tally Low findings) (tally Info findings)
  ∧ severity_sum (calculateStats findings)
    = Z.of_nat
        (length (filter (λ f, known (models.Severity_ f) = true) findings))
  ∧ (Forall (λ f, known (models.Severity_ f) = true) findings →
     severity_sum (calculateStats findings)
     = TotalFindings (calculateStats findings)).
Proof.
  split; [|split].
  - unfold calculateStats. rewrite fold_count_tally. cbn. f_equal; lia.
  - apply calculateStats_sum.
  - intros Hall. rewrite calculateStats_sum.
    unfold calculateStats. rewrite fold_count_total.
    assert (Hkeep : filter (λ f, known (models.Severity_ f) = true) findings
                    = findings).
    { induction Hall as [|f fs Hf _ IH]; [done|].
      rewrite filter_cons, decide_True by done. f_equal. exact IH. }
    rewrite Hkeep. cbn. lia.
Qed.

(** Two findings synthesized from rules, of severities HIGH and INFO. *)
Lemma calculateStats_counts_witness :
  let findings :=
    [ai.Detector.ruleFinding (ai.Rule.mk "R1" "n" "p" "HIGH" "Injection" [] "d");
     ai.Detector.ruleFinding (ai.Rule.mk "R2" "n" "p" "INFO" "Security" [] "d")] in
  calculateStats findings = mkStats 2 0 1 0 0 1
  ∧ severity_sum (calculateStats findings)
    = TotalFindings (calculateStats findings).
Proof.
  intros findings.
  destruct (calculateStats_counts findings) as (Hc & _ & Hs).
  split; [exact Hc|]. apply Hs. repeat constructor.
Defined.

End Stats.

(* ===================================================================== *)
(** * The scanner ([scanner.Scan]) *)
(* ===================================================================== *)

Section Scanner.
Import scanner.

Lemma walkFn_keeps s fs findings v :
  (walkFn s fs findings v).1 = findings.
Proof.
  unfold walkFn. destruct (err v); [done|].
  destruct (IsDir v); [done|]. cbn. apply app_nil_r.
Qed.

Lemma Walk_keeps s fs tree : ∀ findings,
  (Walk s fs tree findings).1 = findings.
Proof.
  induction tree as [|v tree IH]; intros findings; cbn [Walk]; [done|].
  pose proof (walkFn_keeps s fs findings v) as Hk.
  destruct (walkFn s fs findings v) as [findings' [e|]]; cbn in Hk; subst.
  - done.
  - apply IH.
Qed.

(** C2, as stated, fails: in the scenario of the specification the scan
    returns no finding, so not one of severity HIGH and category
    Injection. *)
Lemma Scan_scenario_no_finding :
  Scan (New (mkConfig "src" "model")) examples.scenario_fs examples.scenario_tree = ([], None)
  ∧ ¬ ∃ finding,
      (Scan (New (mkConfig "src" "model")) examples.scenario_fs examples.scenario_tree).1 = [finding]
      ∧ models.Severity_ finding = models.SeverityHigh
      ∧ models.Category finding = "Injection".
Proof.
  split; [reflexivity|].
  intros (finding & Hscan & _). cbn in Hscan. discriminate.
Qed.

(** C2 (amended): for every file, whatever its content and whatever the
    rules, [analyzeFile] emits no finding and no error, and a scan of any
    tree returns the empty list of findings. *)
Theorem Scan_emits_nothing s fs path tree :
  analyzeFile s fs path = ([], None) ∧ (Scan s fs tree).1 = [].
Proof.
  split; [reflexivity|]. unfold Scan. apply Walk_keeps.
Qed.

End Scanner.

(* ===================================================================== *)
(** * The detector ([ai.Detector]) *)
(* ===================================================================== *)

Section Detector.
Import ai.Detector.

Lemma fold_append_map {A B} (f : A → B) (l : list A) : ∀ acc,
  fold_left (λ acc x, acc ++ [f x]) l acc = acc ++ (f <$> l).
Proof.
  induction l as [|x l IH]; intros acc; cbn.
  - by rewrite app_nil_r.
  - rewrite IH. by rewrite <- app_assoc.
Qed.

Lemma fold_append_filter {A B} (P : A → Prop) `{∀ x, Decision (P x)}
    (f : A → B) (l : list A) : ∀ acc,
  fold_left (λ acc x, if decide (P x) then acc ++ [f x] else acc) l acc
  = acc ++ (f <$> filter P l).
Proof.
  induction l as [|x l IH]; intros acc; cbn [fold_left].
  - cbn. by rewrite app_nil_r.
  - rewrite IH, filter_cons. case_decide.
    + rewrite fmap_cons. by rewrite <- app_assoc.
    + done.
Qed.

(** One finding per rule with a pattern, in the order of the rules. *)
Lemma detectAdditionalIssues_spec d findings :
  detectAdditionalIssues d findings
  = ruleFinding <$> filter (λ rule, ai.Rule.Pattern rule ≠ "") (rules d).
Proof. unfold detectAdditionalIssues. by rewrite fold_append_filter. Qed.

(** C6: [enhanceFinding] appends the marker to the description and sets the
    default remediation exactly when the remediation is empty, keeping the
    other fields; [detectAdditionalIssues] gives, for every rule whose
    pattern is not empty and in the order of the rules, one finding with id
    AI-<rule id>, the rule's name as title, and the rule's description,
    severity and category -- whatever the findings it is given. *)
Theorem enhancer_enriches_and_synthesizes d finding findings :
  enhanceFinding d finding
  = models.mkFinding
      (models.ID finding) (models.Title finding)
      (models.Description finding +:+ " (AI Verified)")
      (models.Severity_ finding) (models.Category finding)
      (models.Location finding) (models.CodeSnippet finding)
      (models.Timestamp finding)
      (if decide (models.Remediation finding = "")
       then "AI suggested: Review and sanitize all inputs"
       else models.Remediation finding)
      (models.Confidence finding)
  ∧ detectAdditionalIssues d findings
    = (λ rule,
         models.mkFinding
           ("AI-" +:+ ai.Rule.ID rule) (ai.Rule.Name rule)
           (ai.Rule.Description rule) (ai.Rule.Severity rule)
           (ai.Rule.Category rule) "" "" 0 "" (Q2Qc 0))
      <$> filter (λ rule, ai.Rule.Pattern rule ≠ "") (rules d).
Proof.
  split; [reflexivity|]. apply detectAdditionalIssues_spec.
Qed.

(** The findings before truncation. *)
Lemma Analyze_unfold d findings :
  initialized d = true →
  Analyze d findings
  = (out ← prioritizeFindings d
             ((enhanceFinding d <$> findings)
              ++ (ruleFinding <$> filter (λ rule, ai.Rule.Pattern rule ≠ "") (rules d)));
     Returns (out, None)).
Proof.
  intros Hi. unfold Analyze. rewrite Hi. cbn [negb].
  by rewrite fold_append_map, detectAdditionalIssues_spec.
Qed.

Lemma prioritizeFindings_take d findings :
  0 ≤ maxFindings d →
  prioritizeFindings d findings
  = Returns (take (Z.to_nat (maxFindings d)) findings).
Proof.
  intros Hk. unfold prioritizeFindings, slice_to.
  case_bool_decide as Hlt.
  - rewrite decide_True by lia. done.
  - rewrite take_ge by lia. done.
Qed.

(** A negative bound makes the slice expression panic. *)
Lemma prioritizeFindings_negative d findings :
  maxFindings d < 0 →
  prioritizeFindings d findings = Panics "slice bounds out of range".
Proof.
  intros Hk. unfold prioritizeFindings, slice_to.
  rewrite bool_decide_eq_true_2 by lia.
  rewrite decide_False by lia. done.
Qed.

(** C7, as stated, fails: a config.json may give a negative bound, which
    is taken as it is; the sequence of one enhanced finding and three
    synthesized ones is longer than the bound -1, and [Analyze] does not
    return a list cut to the bound: it panics. *)
Lemma Analyze_panics_instead_of_truncating :
  let fs : gmap string file :=
    {[ "model/config.json" := JsonText (JObj [("maxFindings", JInt (-1))]);
       "model/rules.json" := JsonText (JArr (encode <$> configs.rules)) ]} in
  let d := ai.NewDetector fs "model" in
  initialized d = true
  ∧ maxFindings d = -1
  ∧ length ((enhanceFinding d <$> [examples.sql_finding])
            ++ (ruleFinding
                <$> filter (λ rule, ai.Rule.Pattern rule ≠ "") (rules d)))
    = 4%nat
  ∧ Analyze d [examples.sql_finding] = Panics "slice bounds out of range"
  ∧ ¬ ∃ out e, Analyze d [examples.sql_finding] = Returns (out, e).
Proof.
  intros fs d. split; [reflexivity|]. split; [reflexivity|].
  split; [reflexivity|]. split; [reflexivity|].
  intros (out & e & H). vm_compute in H. discriminate.
Qed.

(** C7 (amended): on an initialized detector whose bound [maxFindings] is
    not negative, [Analyze] returns the enhanced findings in input order,
    followed by the synthesized findings in the order of the rules, cut to
    the first [maxFindings] elements without any sorting -- exactly
    [maxFindings] elements when the sequence is longer.  With a negative
    bound it panics, and on a detector that is not initialized it returns
    the findings it was given and the not-initialized error. *)
Theorem Analyze_truncates_or_fails d findings :
  let sequence :=
    (enhanceFinding d <$> findings)
    ++ (ruleFinding <$> filter (λ rule, ai.Rule.Pattern rule ≠ "") (rules d)) in
  Analyze d findings
  = (if initialized d
     then if decide (0 ≤ maxFindings d)
          then Returns (take (Z.to_nat (maxFindings d)) sequence, None)
          else Panics "slice bounds out of range"
     else Returns (findings, Some (Errorf "detector not properly initialized")))
  ∧ (0 ≤ maxFindings d < Z.of_nat (length sequence) →
     Z.of_nat (length (take (Z.to_nat (maxFindings d)) sequence))
     = maxFindings d).
Proof.
  intros sequence. split.
  - destruct (initialized d) eqn:Hi.
    + rewrite Analyze_unfold by done. fold sequence.
      case_decide as Hk.
      * by rewrite prioritizeFindings_take.
      * by rewrite prioritizeFindings_negative by lia.
    + unfold Analyze. by rewrite Hi.
  - intros Hlt. rewrite length_take. lia.
Qed.

(** Three rules and a bound of two (scenario 3 of the specification). *)
Lemma Analyze_truncates_or_fails_witness :
  let rule id := ai.Rule.mk id "n" "p" "LOW" "c" [] "d" in
  let d := mk "model" (Q2Qc (3 # 4)) 2 true [rule "1"; rule "2"; rule "3"] in
  Analyze d [models.zero]
  = Returns ([enhanceFinding d models.zero; ruleFinding (rule "1")], None)
  ∧ Z.of_nat (length [enhanceFinding d models.zero; ruleFinding (rule "1")]) = 2.
Proof.
  intros rule d.
  destruct (Analyze_truncates_or_fails d [models.zero]) as [Hout Hlen].
  split; [exact Hout|]. apply Hlen.
  vm_compute. split; [discriminate|reflexivity].
Defined.

End Detector.

(* ===================================================================== *)
(** * Loading ([ai.NewClassifier], [ai.NewDetector]) *)
(* ===================================================================== *)

Section Loading.
Import ai.

Lemma unloadable_inv {T} (dec : Json.decoder T) zero fs path :
  unloadable dec zero fs path →
  (∃ e, ReadFile fs path = Err e)
  ∨ (∃ data e, ReadFile fs path = Ok data ∧ Json.Unmarshal dec data zero = Err e).
Proof.
  unfold unloadable. destruct (ReadFile fs path) as [data|e].
  - destruct (Json.Unmarshal dec data zero) as [x|e] eqn:Hd; cbn; [done|].
    intros _. right. exists data, e. split; [reflexivity | exact Hd].
  - intros _. left. exists e. reflexivity.
Qed.

Lemma Classifier_loadConfig_fails fs c path :
  unloadable Classifier.decode_configFile
    (Classifier.mkConfigFile ModelConfig.zero []) fs path →
  ∃ e, Classifier.loadConfig fs c path = (c, Some e).
Proof.
  intros [[e He]|(data & e & Hd & He)]%unloadable_inv;
    unfold Classifier.loadConfig.
  - rewrite He. eauto.
  - rewrite Hd, He. eauto.
Qed.

(** [loadConfig] never touches the flag nor the profiles. *)
Lemma Classifier_loadConfig_frame fs c path :
  Classifier.initialized (Classifier.loadConfig fs c path).1
  = Classifier.initialized c
  ∧ Classifier.categoryData (Classifier.loadConfig fs c path).1
    = Classifier.categoryData c
  ∧ Classifier.modelPath (Classifier.loadConfig fs c path).1
    = Classifier.modelPath c.
Proof.
  unfold Classifier.loadConfig.
  destruct (ReadFile fs path) as [data|e]; [|done].
  destruct (Json.Unmarshal _ data _) as [config|e]; done.
Qed.

Lemma Classifier_loadCategories_fails fs c path :
  unloadable Classifier.decode_rulesData [] fs path →
  ∃ e, Classifier.loadCategories fs c path = (c, Some e).
Proof.
  intros [[e He]|(data & e & Hd & He)]%unloadable_inv;
    unfold Classifier.loadCategories.
  - rewrite He. eauto.
  - rewrite Hd, He. eauto.
Qed.

Lemma addRule_initialized c rule :
  Classifier.initialized (Classifier.addRule c rule) = Classifier.initialized c.
Proof. reflexivity. Qed.

Lemma fold_addRule_initialized rules : ∀ c,
  Classifier.initialized (fold_left Classifier.addRule rules c)
  = Classifier.initialized c.
Proof.
  induction rules as [|r rules IH]; intros c; cbn; [done|].
  by rewrite IH.
Qed.

Lemma Classifier_loadCategories_initialized fs c path :
  Classifier.initialized (Classifier.loadCategories fs c path).1
  = Classifier.initialized c.
Proof.
  unfold Classifier.loadCategories.
  destruct (ReadFile fs path) as [data|e]; [|done].
  destruct (Json.Unmarshal _ data _) as [rules|e]; [|done].
  apply fold_addRule_initialized.
Qed.

(** The flag of a new classifier is set exactly when [initialize] returned
    no error. *)
Lemma NewClassifier_initialized fs modelPath :
  let c0 := Classifier.mk modelPath (Q2Qc (4 # 5)) [] false ModelConfig.zero ∅ in
  Classifier.initialized (NewClassifier fs modelPath)
  = bool_decide ((Classifier.initialize fs c0).2 = None).
Proof.
  intros c0. unfold NewClassifier. fold c0.
  unfold Classifier.initialize.
  pose proof (Classifier_loadConfig_frame fs c0
                (Join (Classifier.modelPath c0) "config.json")) as (Hi & _ & _).
  destruct (Classifier.loadConfig fs c0 _) as [c1 [e|]]; cbn in Hi; [done|].
  pose proof (Classifier_loadCategories_initialized fs c1
                (Join (Classifier.modelPath c1) "rules.json")) as Hi'.
  destruct (Classifier.loadCategories fs c1 _) as [c2 [e|]]; cbn in Hi'.
  - cbn. congruence.
  - done.
Qed.

(** A configuration or rules source that is missing, unreadable or
    malformed leaves the classifier uninitialized. *)
Lemma NewClassifier_load_failure fs modelPath :
  unloadable Classifier.decode_configFile
    (Classifier.mkConfigFile ModelConfig.zero []) fs (Join modelPath "config.json")
  ∨ unloadable Classifier.decode_rulesData [] fs (Join modelPath "rules.json") →
  Classifier.initialized (NewClassifier fs modelPath) = false.
Proof.
  intros Hbad. rewrite NewClassifier_initialized.
  apply bool_decide_eq_false.
  unfold Classifier.initialize.
  set (c0 := Classifier.mk _ _ _ _ _ _).
  change (Classifier.modelPath c0) with modelPath.
  pose proof (Classifier_loadConfig_frame fs c0 (Join modelPath "config.json"))
    as (_ & _ & Hp).
  destruct (Classifier.loadConfig fs c0 _) as [c1 [e|]] eqn:Hcfg; [done|].
  cbn in Hp. rewrite Hp.
  destruct Hbad as [Hbad|Hbad].
  - destruct (Classifier_loadConfig_fails fs c0 _ Hbad) as [e He]. congruence.
  - destruct (Classifier_loadCategories_fails fs c1 _ Hbad) as [e He].
    by rewrite He.
Qed.

Lemma Stat_ok_ReadFile fs path :
  Stat_ok fs path = false → ReadFile fs path = Err (ErrNotExist path).
Proof.
  unfold Stat_ok, ReadFile. intros Hs%bool_decide_eq_false.
  destruct (fs !! path); [|done]. exfalso. eauto.
Qed.

Lemma loadRules_fails fs path :
  unloadable Rule.decode_slice [] fs path → ∃ e, loadRules fs path = Err e.
Proof.
  intros [[e He]|(data & e & Hd & He)]%unloadable_inv; unfold loadRules.
  - rewrite He. eauto.
  - rewrite Hd, He. eauto.
Qed.

Lemma loadConfig_fails fs path :
  unloadable DetectorConfig.decode DetectorConfig.zero fs path →
  ∃ e, loadConfig fs path = Err e.
Proof.
  intros [[e He]|(data & e & Hd & He)]%unloadable_inv; unfold loadConfig.
  - rewrite He. eauto.
  - rewrite Hd, He. eauto.
Qed.

Lemma initRules_frame fs d :
  Detector.initialized (Detector.initRules fs d).1 = Detector.initialized d
  ∧ Detector.modelPath (Detector.initRules fs d).1 = Detector.modelPath d.
Proof.
  unfold Detector.initRules. destruct (Stat_ok fs _); [|done].
  destruct (loadRules fs _); done.
Qed.

Lemma initConfig_frame fs d :
  Detector.initialized (Detector.initConfig fs d).1 = Detector.initialized d.
Proof.
  unfold Detector.initConfig. destruct (Stat_ok fs _); [|done].
  destruct (loadConfig fs _); done.
Qed.

(** The flag of a new detector is set exactly when [initialize] returned
    no error. *)
Lemma NewDetector_initialized fs modelPath :
  let d0 := Detector.mk modelPath (Q2Qc (3 # 4)) 100 false [] in
  Detector.initialized (NewDetector fs modelPath)
  = bool_decide ((Detector.initialize fs d0).2 = None).
Proof.
  intros d0. unfold NewDetector. fold d0. unfold Detector.initialize.
  pose proof (initRules_frame fs d0) as [Hi _].
  destruct (Detector.initRules fs d0) as [d1 [e|]]; cbn in Hi; [done|].
  pose proof (initConfig_frame fs d1) as Hi'.
  destruct (Detector.initConfig fs d1) as [d2 [e|]]; cbn in Hi'.
  - cbn. congruence.
  - done.
Qed.

(** A rules or configuration file that is present and cannot be loaded
    leaves the detector uninitialized. *)
Lemma NewDetector_load_failure fs modelPath :
  broken Rule.decode_slice [] fs (Join modelPath "rules.json")
  ∨ broken DetectorConfig.decode DetectorConfig.zero fs (Join modelPath "config.json") →
  Detector.initialized (NewDetector fs modelPath) = false.
Proof.
  intros Hbad. rewrite NewDetector_initialized.
  apply bool_decide_eq_false. unfold Detector.initialize.
  set (d0 := Detector.mk _ _ _ _ _).
  pose proof (initRules_frame fs d0) as [_ Hp].
  destruct (Detector.initRules fs d0) as [d1 [e|]] eqn:Hr; [done|].
  cbn in Hp.
  destruct Hbad as [[Hs Hbad]|[Hs Hbad]].
  - unfold Detector.initRules in Hr.
    change (Detector.modelPath d0) with modelPath in Hr. rewrite Hs in Hr.
    destruct (loadRules_fails fs _ Hbad) as [e He]. rewrite He in Hr. done.
  - unfold Detector.initConfig. rewrite Hp.
    change (Detector.modelPath d0) with modelPath. rewrite Hs.
    destruct (loadConfig_fails fs _ Hbad) as [e He]. by rewrite He.
Qed.

(** Files that are absent are passed over: the detector is initialized
    with its defaults and no rule. *)
Lemma NewDetector_absent fs modelPath :
  Stat_ok fs (Join modelPath "rules.json") = false →
  Stat_ok fs (Join modelPath "config.json") = false →
  NewDetector fs modelPath = Detector.mk modelPath (Q2Qc (3 # 4)) 100 true [].
Proof.
  intros Hr Hc.
  unfold NewDetector, Detector.initialize, Detector.initRules. cbn.
  rewrite Hr. unfold Detector.initConfig. cbn. by rewrite Hc.
Qed.

End Loading.

(* ===================================================================== *)
(** * The two readers of rules.json *)
(* ===================================================================== *)

Section RulesFile.
Import ai.

(** An array of strings decodes to the strings. *)
Lemma strings_decode keywords : ∀ cur,
  Json.elements "" Json.string_ cur (JStr <$> keywords) = Ok keywords.
Proof.
  induction keywords as [|k ks IH]; intros cur; cbn; [done|].
  by rewrite IH.
Qed.

(** A rule written with the seven keys of the shipped file decodes to
    itself. *)
Lemma Rule_decode_encode rule cur :
  Rule.decode cur (encode rule) = Ok rule.
Proof.
  destruct rule as [id name pattern severity category keywords description].
  unfold Rule.decode, Json.struct_, encode, configs.rule.
  cbn [Rule.ID Rule.Name Rule.Pattern Rule.Severity Rule.Category
       Rule.Keywords Rule.Description Json.members].
  change (Rule.field "id") with (Json.into Json.string_ Rule.ID Rule.set_ID).
  change (Rule.field "name") with (Json.into Json.string_ Rule.Name Rule.set_Name).
  change (Rule.field "pattern")
    with (Json.into Json.string_ Rule.Pattern Rule.set_Pattern).
  change (Rule.field "severity")
    with (Json.into Json.string_ Rule.Severity Rule.set_Severity).
  change (Rule.field "category")
    with (Json.into Json.string_ Rule.Category Rule.set_Category).
  change (Rule.field "keywords")
    with (Json.into (Json.slice_ "[]string" "" Json.string_)
            Rule.Keywords Rule.set_Keywords).
  change (Rule.field "description")
    with (Json.into Json.string_ Rule.Description Rule.set_Description).
  unfold Json.into at 1 2 3 4 5. cbn [Json.string_].
  unfold Json.into at 1. cbn [Json.slice_].
  rewrite strings_decode.
  reflexivity.
Qed.

Lemma Rules_decode_encode rules : ∀ cur,
  Json.elements Rule.zero Rule.decode cur (encode <$> rules) = Ok rules.
Proof.
  induction rules as [|r rs IH]; intros cur; cbn [fmap list_fmap Json.elements];
    [done|].
  by rewrite Rule_decode_encode, IH.
Qed.

(** [loadCategories] accepts an object whose [rules] member is the array
    of the rules. *)
Lemma loadCategories_accepts_object fs c path rules :
  fs !! path = Some (JsonText (JObj [("rules", JArr (encode <$> rules))])) →
  Classifier.loadCategories fs c path
  = (fold_left Classifier.addRule rules c, None).
Proof.
  intros Hf. unfold Classifier.loadCategories, ReadFile. rewrite Hf.
  unfold Json.Unmarshal, Json.parse, Classifier.decode_rulesData, Json.struct_.
  cbn [Json.members].
  change (Classifier.rulesData_field "rules") with Rule.decode_slice.
  unfold Rule.decode_slice, Json.slice_.
  by rewrite Rules_decode_encode.
Qed.

(** [loadCategories] rejects an array at the top level, the shape
    [loadRules] expects. *)
Lemma loadCategories_rejects_array fs c path elems :
  fs !! path = Some (JsonText (JArr elems)) →
  Classifier.loadCategories fs c path = (c, Some (UnmarshalTypeError "struct")).
Proof.
  intros Hf. unfold Classifier.loadCategories, ReadFile. by rewrite Hf.
Qed.

(** [loadRules] accepts the array of the rules. *)
Lemma loadRules_accepts_array fs path rules :
  fs !! path = Some (JsonText (JArr (encode <$> rules))) →
  loadRules fs path = Ok rules.
Proof.
  intros Hf. unfold loadRules, ReadFile. rewrite Hf.
  unfold Json.Unmarshal, Json.parse, Rule.decode_slice, Json.slice_.
  apply Rules_decode_encode.
Qed.

Lemma loadRules_rejects_object fs path members :
  fs !! path = Some (JsonText (JObj members)) →
  loadRules fs path = Err (UnmarshalTypeError "[]ai.Rule").
Proof.
  intros Hf. unfold loadRules, ReadFile. by rewrite Hf.
Qed.

(** The shipped file is the object holding its three rules. *)
Lemma rules_json_shape :
  configs.rules_json = JObj [("rules", JArr (encode <$> configs.rules))].
Proof. reflexivity. Qed.

(** C10: on a rules file that is a JSON object, as configs/rules.json is,
    [loadRules] returns a decode error, the initialization of the detector
    fails with it and leaves [initialized] false, and every [Analyze]
    returns the not-initialized error; [loadCategories] of the classifier
    accepts the object holding the rules under [rules]. *)
Theorem object_rules_file_splits_the_readers fs modelPath members findings :
  fs !! Join modelPath "rules.json" = Some (JsonText (JObj members)) →
  loadRules fs (Join modelPath "rules.json")
  = Err (UnmarshalTypeError "[]ai.Rule")
  ∧ (Detector.initialize fs
       (Detector.mk modelPath (Q2Qc (3 # 4)) 100 false [])).2
    = Some (Wrapf "failed to load rules" (UnmarshalTypeError "[]ai.Rule"))
  ∧ Detector.initialized (NewDetector fs modelPath) = false
  ∧ Detector.Analyze (NewDetector fs modelPath) findings
    = Returns (findings, Some (Errorf "detector not properly initialized"))
  ∧ ∀ rules (c : Classifier.t),
      members = [("rules", JArr (encode <$> rules))] →
      Classifier.loadCategories fs c (Join modelPath "rules.json")
      = (fold_left Classifier.addRule rules c, None).
Proof.
  intros Hf.
  assert (Hload : loadRules fs (Join modelPath "rules.json")
                  = Err (UnmarshalTypeError "[]ai.Rule"))
    by (by eapply loadRules_rejects_object).
  assert (Hinit : (Detector.initialize fs
                     (Detector.mk modelPath (Q2Qc (3 # 4)) 100 false [])).2
                  = Some (Wrapf "failed to load rules"
                            (UnmarshalTypeError "[]ai.Rule"))).
  { unfold Detector.initialize, Detector.initRules. cbn [Detector.modelPath].
    unfold Stat_ok. rewrite bool_decide_eq_true_2 by (rewrite Hf; eauto).
    by rewrite Hload. }
  assert (Hflag : Detector.initialized (NewDetector fs modelPath) = false).
  { rewrite NewDetector_initialized. apply bool_decide_eq_false.
    by rewrite Hinit. }
  split_and!; try done.
  - unfold Detector.Analyze. by rewrite Hflag.
  - intros rules c Hm. apply loadCategories_accepts_object. by rewrite Hf, Hm.
Qed.

(** The shipped file itself. *)
Lemma object_rules_file_splits_the_readers_witness :
  let fs : gmap string file :=
    {[ "model/rules.json" := JsonText configs.rules_json ]} in
  let c := Classifier.mk "model" (Q2Qc (4 # 5)) [] false ModelConfig.zero ∅ in
  loadRules fs "model/rules.json" = Err (UnmarshalTypeError "[]ai.Rule")
  ∧ Detector.initialized (NewDetector fs "model") = false
  ∧ Classifier.loadCategories fs c "model/rules.json"
    = (fold_left Classifier.addRule configs.rules c, None).
Proof.
  intros fs c.
  destruct (object_rules_file_splits_the_readers fs "model"
              [("rules", JArr (encode <$> configs.rules))] [])
    as (H1 & _ & H3 & _ & H5); [reflexivity|].
  split; [exact H1|]. split; [exact H3|].
  exact (H5 configs.rules c eq_refl).
Defined.

End RulesFile.

(* ===================================================================== *)
(** * What a failed load leads to *)
(* ===================================================================== *)

Section LoadFailure.
Import ai.

(** C3, as stated, fails: with no rules.json in the model directory the
    rules source cannot be read, yet the initialization of the detector
    returns no error, and [Analyze] goes on with no rule at all and returns
    a result and no error. *)
Lemma missing_rules_do_not_stop_the_detector :
  loadRules ∅ (Join "model" "rules.json") = Err (ErrNotExist "model/rules.json")
  ∧ Detector.initialize ∅ (Detector.mk "model" (Q2Qc (3 # 4)) 100 false [])
    = (Detector.mk "model" (Q2Qc (3 # 4)) 100 true [], None)
  ∧ Detector.rules (NewDetector ∅ "model") = []
  ∧ Detector.Analyze (NewDetector ∅ "model") [models.zero]
    = Returns ([Detector.enhanceFinding (NewDetector ∅ "model") models.zero], None).
Proof. repeat split. Qed.

(** C3 (amended): a configuration or rules source of the classifier that
    is missing, unreadable or malformed, and a rules or configuration file
    of the detector that is present but unreadable or malformed, make the
    initialization fail; the constructor drops the error and returns the
    object with [initialized] false, on which every [Classify] or [Analyze]
    returns the not-initialized error and leaves the findings as they are.
    Files that are absent are passed over by the detector: it is
    initialized with its defaults and no rule, and [Analyze] runs. *)
Theorem load_failure_is_swallowed
    fs modelPath (range1 : iteration CategoryFeatures.t)
    (range2 : iteration Qc) finding findings :
  let c := NewClassifier fs modelPath in
  let d := NewDetector fs modelPath in
  (unloadable Classifier.decode_configFile
     (Classifier.mkConfigFile ModelConfig.zero []) fs (Join modelPath "config.json")
   ∨ unloadable Classifier.decode_rulesData [] fs (Join modelPath "rules.json") →
   Classifier.initialized c = false
   ∧ Classifier.Classify range1 range2 c finding
     = Returns (finding, Some (Errorf "classifier not initialized")))
  ∧ (broken Rule.decode_slice [] fs (Join modelPath "rules.json")
     ∨ broken DetectorConfig.decode DetectorConfig.zero fs
         (Join modelPath "config.json") →
     Detector.initialized d = false
     ∧ Detector.Analyze d findings
       = Returns (findings, Some (Errorf "detector not properly initialized")))
  ∧ (Stat_ok fs (Join modelPath "rules.json") = false →
     Stat_ok fs (Join modelPath "config.json") = false →
     d = Detector.mk modelPath (Q2Qc (3 # 4)) 100 true []
     ∧ Detector.Analyze d findings
       = Returns (take 100 (Detector.enhanceFinding d <$> findings), None)).
Proof.
  intros c d. split_and!.
  - intros Hbad.
    pose proof (NewClassifier_load_failure fs modelPath Hbad) as Hflag.
    split; [exact Hflag|].
    unfold Classifier.Classify. fold c in Hflag. by rewrite Hflag.
  - intros Hbad.
    pose proof (NewDetector_load_failure fs modelPath Hbad) as Hflag.
    split; [exact Hflag|].
    unfold Detector.Analyze. fold d in Hflag. by rewrite Hflag.
  - intros Hr Hc.
    pose proof (NewDetector_absent fs modelPath Hr Hc) as Hd. fold d in Hd.
    split; [exact Hd|].
    rewrite Analyze_unfold by (by rewrite Hd).
    rewrite prioritizeFindings_take by (rewrite Hd; cbn; lia).
    rewrite Hd. cbn [Detector.rules Detector.maxFindings filter list_filter fmap
                     list_fmap mbind outcome_bind].
    by rewrite app_nil_r.
Qed.

(** Three model directories: one whose rules.json is not JSON, one with
    the shipped rules.json (an object, which the detector cannot decode),
    and an empty one. *)
Lemma load_failure_is_swallowed_witness :
  let garbled : gmap string file :=
    {[ "model/config.json" := JsonText (JObj []);
       "model/rules.json" := OtherText "{ rules: " ]} in
  let shipped : gmap string file :=
    {[ "model/rules.json" := JsonText configs.rules_json ]} in
  Classifier.Classify forwards forwards (NewClassifier garbled "model") models.zero
  = Returns (models.zero, Some (Errorf "classifier not initialized"))
  ∧ Detector.Analyze (NewDetector shipped "model") [models.zero]
    = Returns ([models.zero], Some (Errorf "detector not properly initialized"))
  ∧ NewDetector ∅ "model" = Detector.mk "model" (Q2Qc (3 # 4)) 100 true [].
Proof.
  intros garbled shipped. split_and!.
  - apply (load_failure_is_swallowed garbled "model" forwards forwards
             models.zero []).
    right. reflexivity.
  - apply (load_failure_is_swallowed shipped "model" forwards forwards
             models.zero [models.zero]).
    left. split; reflexivity.
  - apply (load_failure_is_swallowed ∅ "model" forwards forwards
             models.zero []); reflexivity.
Defined.

Lemma Classifier_loadConfig_error fs c c' e path :
  Classifier.loadConfig fs c path = (c', Some e) →
  unloadable Classifier.decode_configFile
    (Classifier.mkConfigFile ModelConfig.zero []) fs path.
Proof.
  unfold Classifier.loadConfig, unloadable.
  destruct (ReadFile fs path) as [data|e0]; [|done].
  by destruct (Json.Unmarshal _ data _).
Qed.

Lemma Classifier_loadCategories_error fs c c' e path :
  Classifier.loadCategories fs c path = (c', Some e) →
  unloadable Classifier.decode_rulesData [] fs path.
Proof.
  unfold Classifier.loadCategories, unloadable.
  destruct (ReadFile fs path) as [data|e0]; [|done].
  by destruct (Json.Unmarshal _ data _).
Qed.

Lemma loadRules_error fs path e :
  loadRules fs path = Err e → unloadable Rule.decode_slice [] fs path.
Proof.
  unfold loadRules, unloadable.
  destruct (ReadFile fs path) as [data|e0]; [|done].
  by destruct (Json.Unmarshal _ data _).
Qed.

Lemma loadConfig_error fs path e :
  loadConfig fs path = Err e →
  unloadable DetectorConfig.decode DetectorConfig.zero fs path.
Proof.
  unfold loadConfig, unloadable.
  destruct (ReadFile fs path) as [data|e0]; [|done].
  by destruct (Json.Unmarshal _ data _).
Qed.

(** The flag of a new classifier is unset exactly when one of its two
    sources could not be loaded. *)
Lemma NewClassifier_uninitialized_iff fs modelPath :
  Classifier.initialized (NewClassifier fs modelPath) = false
  ↔ unloadable Classifier.decode_configFile
      (Classifier.mkConfigFile ModelConfig.zero []) fs
      (Join modelPath "config.json")
    ∨ unloadable Classifier.decode_rulesData [] fs (Join modelPath "rules.json").
Proof.
  split; [|apply NewClassifier_load_failure].
  rewrite NewClassifier_initialized. intros Hi%bool_decide_eq_false.
  revert Hi. unfold Classifier.initialize.
  set (c0 := Classifier.mk _ _ _ _ _ _).
  change (Classifier.modelPath c0) with modelPath.
  pose proof (Classifier_loadConfig_frame fs c0 (Join modelPath "config.json"))
    as (_ & _ & Hp).
  destruct (Classifier.loadConfig fs c0 _) as [c1 [e|]] eqn:Hcfg.
  { intros _. left. by eapply Classifier_loadConfig_error. }
  cbn in Hp. rewrite Hp.
  destruct (Classifier.loadCategories fs c1 _) as [c2 [e|]] eqn:Hcat.
  - intros _. right. by eapply Classifier_loadCategories_error.
  - by intros [].
Qed.

(** The flag of a new detector is unset exactly when a file that is
    present could not be loaded. *)
Lemma NewDetector_uninitialized_iff fs modelPath :
  Detector.initialized (NewDetector fs modelPath) = false
  ↔ broken Rule.decode_slice [] fs (Join modelPath "rules.json")
    ∨ broken DetectorConfig.decode DetectorConfig.zero fs
        (Join modelPath "config.json").
Proof.
  split; [|apply NewDetector_load_failure].
  rewrite NewDetector_initialized. intros Hi%bool_decide_eq_false.
  revert Hi. unfold Detector.initialize.
  set (d0 := Detector.mk _ _ _ _ _).
  unfold Detector.initRules at 1.
  change (Detector.modelPath d0) with modelPath.
  destruct (Stat_ok fs (Join modelPath "rules.json")) eqn:Hsr.
  - destruct (loadRules fs _) as [rules|e] eqn:Hr.
    + unfold Detector.initConfig.
      change (Detector.modelPath (Detector.set_rules d0 rules)) with modelPath.
      destruct (Stat_ok fs (Join modelPath "config.json")) eqn:Hsc.
      * destruct (loadConfig fs _) as [config|e] eqn:Hc; [by intros []|].
        intros _. right. split; [done|]. by eapply loadConfig_error.
      * by intros [].
    + intros _. left. split; [done|]. by eapply loadRules_error.
  - unfold Detector.initConfig.
    change (Detector.modelPath d0) with modelPath.
    destruct (Stat_ok fs (Join modelPath "config.json")) eqn:Hsc.
    + destruct (loadConfig fs _) as [config|e] eqn:Hc; [by intros []|].
      intros _. right. split; [done|]. by eapply loadConfig_error.
    + by intros [].
Qed.

(** C9, as stated, fails for the detector: in a directory with neither
    rules.json nor config.json (the default model path is the working
    directory) no rules and no configuration are loaded -- both loaders
    fail -- yet the detector is initialized, and [Analyze] returns changed
    findings and no error. *)
Lemma Analyze_runs_with_nothing_loaded :
  loadRules ∅ (Join "" "rules.json") = Err (ErrNotExist "rules.json")
  ∧ loadConfig ∅ (Join "" "config.json") = Err (ErrNotExist "config.json")
  ∧ Detector.initialized (NewDetector ∅ "") = true
  ∧ Detector.Analyze (NewDetector ∅ "") [examples.sql_finding]
    = Returns ([Detector.enhanceFinding (NewDetector ∅ "") examples.sql_finding],
               None)
  ∧ Detector.enhanceFinding (NewDetector ∅ "") examples.sql_finding
    ≠ examples.sql_finding.
Proof. repeat split. discriminate. Qed.

(** C9 (amended): [Classify] on a classifier, and [Analyze] on a detector,
    whose [initialized] flag is not set return the not-initialized error
    and leave the finding, or the findings, as they were.  The flag of a
    classifier made by [NewClassifier] is unset exactly when config.json or
    rules.json is missing, unreadable or malformed; the flag of a detector
    made by [NewDetector] exactly when a rules.json or config.json that is
    present is unreadable or malformed.  A detector whose two files are
    absent has loaded nothing and is initialized all the same: [Analyze]
    runs on the defaults and returns no error. *)
Theorem not_initialized_after_a_failed_load
    (c : Classifier.t) (d : Detector.t) fs modelPath
    (range1 : iteration CategoryFeatures.t) (range2 : iteration Qc)
    (finding : models.Finding) (findings : list models.Finding) :
  (Classifier.initialized c = false →
   Classifier.Classify range1 range2 c finding
   = Returns (finding, Some (Errorf "classifier not initialized")))
  ∧ (Detector.initialized d = false →
     Detector.Analyze d findings
     = Returns (findings, Some (Errorf "detector not properly initialized")))
  ∧ (Classifier.initialized (NewClassifier fs modelPath) = false
     ↔ unloadable Classifier.decode_configFile
         (Classifier.mkConfigFile ModelConfig.zero []) fs
         (Join modelPath "config.json")
       ∨ unloadable Classifier.decode_rulesData [] fs
           (Join modelPath "rules.json"))
  ∧ (Detector.initialized (NewDetector fs modelPath) = false
     ↔ broken Rule.decode_slice [] fs (Join modelPath "rules.json")
       ∨ broken DetectorConfig.decode DetectorConfig.zero fs
           (Join modelPath "config.json"))
  ∧ (Stat_ok fs (Join modelPath "rules.json") = false →
     Stat_ok fs (Join modelPath "config.json") = false →
     Detector.initialized (NewDetector fs modelPath) = true
     ∧ Detector.Analyze (NewDetector fs modelPath) findings
       = Returns
           (take 100
              (Detector.enhanceFinding (NewDetector fs modelPath) <$> findings),
            None)).
Proof.
  split_and!.
  - intros Hc. unfold Classifier.Classify. by rewrite Hc.
  - intros Hd. unfold Detector.Analyze. by rewrite Hd.
  - apply NewClassifier_uninitialized_iff.
  - apply NewDetector_uninitialized_iff.
  - intros Hr Hc.
    pose proof (NewDetector_absent fs modelPath Hr Hc) as Hd.
    split; [by rewrite Hd|].
    rewrite Analyze_unfold by (by rewrite Hd).
    rewrite prioritizeFindings_take by (rewrite Hd; cbn; lia).
    rewrite Hd. cbn [Detector.rules Detector.maxFindings filter list_filter fmap
                     list_fmap mbind outcome_bind].
    by rewrite app_nil_r.
Qed.

(** A model directory whose configuration file is not JSON: neither the
    classifier nor the detector is initialized, and both say so. *)
Lemma not_initialized_after_a_failed_load_witness :
  let fs : gmap string file := {[ "model/config.json" := OtherText "threshold" ]} in
  Classifier.initialized (NewClassifier fs "model") = false
  ∧ Detector.initialized (NewDetector fs "model") = false
  ∧ Classifier.Classify forwards forwards (NewClassifier fs "model") models.zero
    = Returns (models.zero, Some (Errorf "classifier not initialized"))
  ∧ Detector.Analyze (NewDetector fs "model") [models.zero]
    = Returns ([models.zero], Some (Errorf "detector not properly initialized")).
Proof.
  intros fs.
  destruct (not_initialized_after_a_failed_load
              (NewClassifier fs "model") (NewDetector fs "model") fs "model"
              forwards forwards models.zero [models.zero])
    as (Hclassify & Hanalyze & Hc & Hd & _).
  assert (Hcf : Classifier.initialized (NewClassifier fs "model") = false).
  { apply Hc. left. reflexivity. }
  assert (Hdf : Detector.initialized (NewDetector fs "model") = false).
  { apply Hd. right. split; reflexivity. }
  split; [exact Hcf|]. split; [exact Hdf|].
  split; [exact (Hclassify Hcf)|exact (Hanalyze Hdf)].
Defined.

End LoadFailure.

(* ===================================================================== *)
(** * Sorting ([sort.Slice]) *)
(* ===================================================================== *)

Section SliceSort.
Context {A : Type} (less : A → A → bool).
Hypothesis less_asym : ∀ a b, less a b = true → less b a = false.
Hypothesis less_negtrans :
  ∀ a b c, less a b = false → less b c = false → less a c = false.

(** In the reversed prefix, no element has to go before a later one. *)
Let settled : relation A := λ a b, less a b = false.

Lemma less_irrefl a : less a a = false.
Proof.
  pose proof (less_asym a a) as Hs.
  destruct (less a a); [exact (Hs eq_refl)|reflexivity].
Qed.

Lemma sink_perm l x : sink less l x ≡ₚ x :: l.
Proof.
  induction l as [|y l IH]; cbn; [done|].
  destruct (less x y); [|done].
  rewrite IH. apply Permutation_swap.
Qed.

Lemma sink_sorted l x :
  StronglySorted settled l → StronglySorted settled (sink less l x).
Proof.
  induction 1 as [|y l Hs IH Hy]; cbn.
  - repeat constructor.
  - destruct (less x y) eqn:Hxy.
    + constructor; [exact IH|].
      rewrite sink_perm. constructor; [by apply less_asym|exact Hy].
    + constructor; [by constructor|].
      constructor; [exact Hxy|].
      eapply Forall_impl; [exact Hy|]. intros b Hb. by eapply less_negtrans.
Qed.

Lemma insertion_perm data : ∀ acc, fold_left (sink less) data acc ≡ₚ data ++ acc.
Proof.
  induction data as [|x data IH]; intros acc; cbn; [done|].
  rewrite IH, sink_perm. by rewrite Permutation_middle.
Qed.

Lemma insertion_sorted data : ∀ acc,
  StronglySorted settled acc →
  StronglySorted settled (fold_left (sink less) data acc).
Proof.
  induction data as [|x data IH]; intros acc Hacc; cbn; [done|].
  apply IH. by apply sink_sorted.
Qed.

Lemma sorted_last l z :
  StronglySorted settled l → last l = Some z → Forall (λ a, less a z = false) l.
Proof.
  induction 1 as [|y l Hs IH Hy]; intros Hlast; [done|].
  destruct l as [|y' l'].
  - cbn in Hlast. injection Hlast as ->. repeat constructor. apply less_irrefl.
  - rewrite last_cons_cons in Hlast. constructor; [|by apply IH].
    rewrite Forall_forall in Hy. apply Hy. by eapply last_Some_elem_of.
Qed.

Lemma Slice_perm data : Slice less data ≡ₚ data.
Proof.
  unfold Slice, insertion_rev.
  by rewrite reverse_Permutation, insertion_perm, app_nil_r.
Qed.

(** The head of the sorted slice is an element before which no element
    has to go. *)
Lemma Slice_head data first rest :
  Slice less data = first :: rest →
  first ∈ data ∧ ∀ a, a ∈ data → less a first = false.
Proof.
  intros Hs.
  assert (Hin : first ∈ data).
  { rewrite <- (Slice_perm data), Hs. by left. }
  split; [exact Hin|]. intros a Ha.
  assert (Hlast : last (insertion_rev less data) = Some first).
  { rewrite <- head_reverse. fold (Slice less data). by rewrite Hs. }
  pose proof (sorted_last _ _
                (insertion_sorted data [] (SSorted_nil _)) Hlast) as Hall.
  rewrite Forall_forall in Hall. apply Hall.
  unfold insertion_rev. by rewrite insertion_perm, app_nil_r.
Qed.

Lemma Slice_nil data : Slice less data = [] → data = [].
Proof.
  intros Hs. apply Permutation_nil_r. by rewrite <- (Slice_perm data), Hs.
Qed.

End SliceSort.

(* ===================================================================== *)
(** * Scoring ([Classifier.calculateScore]) *)
(* ===================================================================== *)

Section Scoring.
Import ai.
Local Open Scope Qc_scope.

Lemma Qc_of_nat_succ (n : nat) :
  Qc_of_Z (Z.of_nat (S n)) = Qc_of_Z (Z.of_nat n) + 1.
Proof. by rewrite Nat2Z.inj_succ, <- Z.add_1_r, Z2Qc_inj_add, Z2Qc_inj_1. Qed.

Lemma Qc_of_nat_nonneg (n : nat) : 0 ≤ Qc_of_Z (Z.of_nat n).
Proof.
  rewrite <- Z2Qc_inj_0.
  apply (proj1 (Z2Qc_inj_le 0 (Z.of_nat n))). lia.
Qed.

Lemma half_pos : 0 < half.
Proof. reflexivity. Qed.

(** With one weight per pattern the pattern loop does not panic. *)
Lemma patternScore_returns snippet patterns weights : ∀ i score,
  (i + length patterns ≤ length weights)%nat →
  ∃ score', Classifier.patternScore snippet patterns weights i score
            = Returns score'.
Proof.
  induction patterns as [|p ps IH]; intros i score Hlen; cbn; [eauto|].
  cbn in Hlen. destruct (Contains snippet p).
  - destruct (lookup_lt_is_Some_2 weights i) as [w Hw]; [lia|].
    rewrite Hw. apply IH. lia.
  - apply IH. lia.
Qed.

Lemma calculateScore_returns finding features :
  aligned features →
  ∃ score, Classifier.calculateScore finding features = Returns score.
Proof.
  intros Ha. unfold Classifier.calculateScore.
  destruct (patternScore_returns (models.CodeSnippet finding)
              (CategoryFeatures.Patterns features)
              (CategoryFeatures.Weights features) 0 0) as [s Hs].
  { rewrite Ha. lia. }
  rewrite Hs. cbn. case_bool_decide; eauto.
Qed.

Lemma normalizedScore_returns finding features :
  aligned features →
  Classifier.calculateScore finding features
  = Returns (normalizedScore finding features).
Proof.
  intros [s Hs]%(calculateScore_returns finding).
  unfold normalizedScore. by rewrite Hs.
Qed.

(** Every pattern found, every weight 1: the loop adds the number of
    patterns. *)
Lemma patternScore_all snippet patterns weights : ∀ i score,
  Forall (λ p, Contains snippet p = true) patterns →
  (∀ j, (i ≤ j < i + length patterns)%nat → weights !! j = Some 1) →
  Classifier.patternScore snippet patterns weights i score
  = Returns (score + Qc_of_Z (Z.of_nat (length patterns))).
Proof.
  induction patterns as [|p ps IH]; intros i score Hall Hw.
  - cbn. f_equal. rewrite Nat2Z.inj_0, Z2Qc_inj_0. ring.
  - inversion_clear Hall as [|? ? Hp Hps]. cbn [Classifier.patternScore].
    rewrite Hp, (Hw i) by (cbn; lia).
    rewrite IH; [|done|intros j Hj; apply Hw; cbn; lia].
    f_equal. cbn [length]. rewrite Qc_of_nat_succ. ring.
Qed.

(** Every keyword found: the loop adds half the number of keywords. *)
Lemma keywordScore_all description keywords : ∀ score,
  Forall (λ k, Contains (ToLower description) (ToLower k) = true) keywords →
  Classifier.keywordScore description keywords score
  = score + Qc_of_Z (Z.of_nat (length keywords)) * half.
Proof.
  unfold Classifier.keywordScore.
  induction keywords as [|k ks IH]; intros score Hall.
  - cbn. rewrite Nat2Z.inj_0, Z2Qc_inj_0. ring.
  - inversion_clear Hall as [|? ? Hk Hks]. cbn [fold_left].
    rewrite Hk, IH by done. cbn [length]. rewrite Qc_of_nat_succ. ring.
Qed.

Lemma unit_weights_aligned features : unit_weights features → aligned features.
Proof. intros [Hw _]. unfold aligned. by rewrite Hw, length_replicate. Qed.

Lemma full_match finding features :
  unit_weights features →
  Forall (λ p, Contains (models.CodeSnippet finding) p = true)
    (CategoryFeatures.Patterns features) →
  Forall (λ k, Contains (ToLower (models.Description finding)) (ToLower k) = true)
    (CategoryFeatures.Keywords features) →
  Classifier.calculateScore finding features = Returns 1.
Proof.
  intros [Hw Hne] Hp Hk. unfold Classifier.calculateScore.
  rewrite patternScore_all; [|done|].
  2:{ intros j Hj. rewrite Hw. apply lookup_replicate_2. lia. }
  cbn [mbind outcome_bind]. rewrite keywordScore_all by done.
  unfold Classifier.maxScore.
  set (P := Qc_of_Z (Z.of_nat (length (CategoryFeatures.Patterns features)))).
  set (K := Qc_of_Z (Z.of_nat (length (CategoryFeatures.Keywords features)))).
  assert (HP : 0 < P).
  { unfold P. destruct (CategoryFeatures.Patterns features); [done|].
    cbn [length]. rewrite Qc_of_nat_succ.
    apply Qcplus_nonneg_pos; [apply Qc_of_nat_nonneg|reflexivity]. }
  assert (Hmax : 0 < P + K * half).
  { apply Qcplus_pos_nonneg; [done|].
    apply Qcmult_nonneg_nonneg; [apply Qc_of_nat_nonneg|].
    apply Qclt_le_weak, half_pos. }
  rewrite bool_decide_eq_true_2 by done.
  f_equal. field. intros Hz. rewrite Hz in Hmax. by apply Qclt_not_eq in Hmax.
Qed.

Lemma addRule_unit_weights c rule :
  map_Forall (λ _, unit_weights) (Classifier.categoryData c) →
  map_Forall (λ _, unit_weights) (Classifier.categoryData (Classifier.addRule c rule)).
Proof.
  intros Hc. unfold Classifier.addRule. cbn [Classifier.categoryData Classifier.set_categoryData].
  apply map_Forall_insert_2; [|done].
  assert (Hf : unit_weights
                 (default CategoryFeatures.zero
                    (Classifier.categoryData c !! Rule.Category rule))
               ∨ default CategoryFeatures.zero
                   (Classifier.categoryData c !! Rule.Category rule)
                 = CategoryFeatures.zero).
  { destruct (Classifier.categoryData c !! Rule.Category rule) eqn:Hl; cbn.
    - left. by eapply Hc. - by right. }
  destruct Hf as [[Hw Hne]| ->]; split; cbn.
  - rewrite Hw, length_app. cbn [length].
    by rewrite Nat.add_1_r, replicate_S_end.
  - by destruct (CategoryFeatures.Patterns _).
  - done.
  - done.
Qed.

Lemma fold_addRule_unit_weights rules : ∀ c,
  map_Forall (λ _, unit_weights) (Classifier.categoryData c) →
  map_Forall (λ _, unit_weights)
    (Classifier.categoryData (fold_left Classifier.addRule rules c)).
Proof.
  induction rules as [|r rs IH]; intros c Hc; cbn; [done|].
  by apply IH, addRule_unit_weights.
Qed.

Lemma loadCategories_unit_weights fs c path :
  map_Forall (λ _, unit_weights) (Classifier.categoryData c) →
  map_Forall (λ _, unit_weights)
    (Classifier.categoryData (Classifier.loadCategories fs c path).1).
Proof.
  intros Hc. unfold Classifier.loadCategories.
  destruct (ReadFile fs path) as [data|e]; [|done].
  destruct (Json.Unmarshal _ data _) as [rules|e]; [|done].
  by apply fold_addRule_unit_weights.
Qed.

(** Every profile of a new classifier has one weight 1.0 per pattern, and
    at least one pattern. *)
Lemma NewClassifier_unit_weights fs modelPath :
  map_Forall (λ _, unit_weights)
    (Classifier.categoryData (NewClassifier fs modelPath)).
Proof.
  unfold NewClassifier, Classifier.initialize.
  set (c0 := Classifier.mk _ _ _ _ _ _).
  pose proof (Classifier_loadConfig_frame fs c0
                (Join (Classifier.modelPath c0) "config.json")) as (_ & Hd & _).
  destruct (Classifier.loadConfig fs c0 _) as [c1 [e|]]; cbn in Hd.
  - rewrite Hd. apply map_Forall_empty.
  - pose proof (loadCategories_unit_weights fs c1
                  (Join (Classifier.modelPath c1) "rules.json")) as Hu.
    destruct (Classifier.loadCategories fs c1 _) as [c2 [e|]]; cbn in Hu |- *;
      apply Hu; rewrite Hd; apply map_Forall_empty.
Qed.

Lemma NewClassifier_well_formed fs modelPath :
  well_formed (NewClassifier fs modelPath).
Proof.
  intros category features Hl. apply unit_weights_aligned.
  by eapply (NewClassifier_unit_weights fs modelPath).
Qed.

(** C4: for every category profile of the classifier -- it has P patterns,
    P weights 1.0 and K keywords -- and every finding whose code snippet
    contains all the patterns as substrings and whose description contains
    all the keywords, letter case aside, [calculateScore] returns the
    normalized score 1.0. *)
Theorem full_match_scores_one fs modelPath category features finding :
  Classifier.categoryData (NewClassifier fs modelPath) !! category = Some features →
  Forall (λ p, Contains (models.CodeSnippet finding) p = true)
    (CategoryFeatures.Patterns features) →
  Forall (λ k, Contains (ToLower (models.Description finding)) (ToLower k) = true)
    (CategoryFeatures.Keywords features) →
  CategoryFeatures.Weights features
  = replicate (length (CategoryFeatures.Patterns features)) 1
  ∧ Classifier.calculateScore finding features = Returns 1.
Proof.
  intros Hl Hp Hk.
  pose proof (NewClassifier_unit_weights fs modelPath category features Hl) as Hu.
  split; [apply Hu|]. by apply full_match.
Qed.

End Scoring.

(* ===================================================================== *)
(** * Classification ([Classifier.Classify]) *)
(* ===================================================================== *)

Section Classification.
Import ai.
Local Open Scope Qc_scope.

Lemma less_asym a b : Classifier.less a b = true → Classifier.less b a = false.
Proof.
  unfold Classifier.less. intros H%bool_decide_eq_true.
  apply bool_decide_eq_false. intros H'. by eapply Qclt_not_le, Qclt_le_weak.
Qed.

Lemma less_negtrans a b c :
  Classifier.less a b = false → Classifier.less b c = false →
  Classifier.less a c = false.
Proof.
  unfold Classifier.less.
  intros H1%bool_decide_eq_false%Qcnot_lt_le H2%bool_decide_eq_false%Qcnot_lt_le.
  apply bool_decide_eq_false, Qcle_not_lt. by etrans.
Qed.

(** The slice [getBestCategory] builds from the map. *)
Lemma fold_categoryScore (visit : list (string * Qc)) : ∀ acc,
  fold_left
    (λ sorted '(category, score),
       sorted ++ [Classifier.mkCategoryScore category score])
    visit acc
  = acc ++ ((λ kv, Classifier.mkCategoryScore kv.1 kv.2) <$> visit).
Proof.
  induction visit as [|[k v] visit IH]; intros acc; cbn.
  - by rewrite app_nil_r.
  - rewrite IH. by rewrite <- app_assoc.
Qed.

(** Whatever the order of the visit, [getBestCategory] returns a category
    of maximal score. *)
Lemma getBestCategory_wins range scores :
  visits_all range →
  wins scores (Classifier.getBestCategory range scores).1
              (Classifier.getBestCategory range scores).2.
Proof.
  intros Hrange. unfold Classifier.getBestCategory.
  rewrite fold_categoryScore, app_nil_l.
  set (data := (λ kv, Classifier.mkCategoryScore kv.1 kv.2) <$> range scores).
  destruct (Slice Classifier.less data) as [|first rest] eqn:Hs.
  - left. apply (Slice_nil _) in Hs. split; [|done].
    apply fmap_nil_inv in Hs.
    apply map_to_list_empty_iff, Permutation_nil_r.
    by rewrite <- (Hrange scores), Hs.
  - right. apply (Slice_head _ less_asym less_negtrans) in Hs as [Hin Hmax].
    cbn. split.
    + apply list_elem_of_fmap in Hin as ([k v] & -> & Hkv). cbn.
      apply elem_of_map_to_list. by rewrite <- (Hrange scores).
    + intros other s' Ho.
      assert (Hd : Classifier.mkCategoryScore other s' ∈ data).
      { apply list_elem_of_fmap. exists (other, s'). split; [done|].
        rewrite (Hrange scores). by apply elem_of_map_to_list. }
      apply Hmax in Hd. unfold Classifier.less in Hd. cbn in Hd.
      by apply bool_decide_eq_false, Qcnot_lt_le in Hd.
Qed.

(** Two winners have the same score. *)
Lemma wins_score scores category s category' s' :
  wins scores category s → wins scores category' s' → s = s'.
Proof.
  intros [(He & _ & ->)|[Hl Hmax]] [(He' & _ & ->)|[Hl' Hmax']]; [done|..].
  - rewrite He in Hl'. by rewrite lookup_empty in Hl'.
  - rewrite He' in Hl. by rewrite lookup_empty in Hl.
  - apply Qcle_antisym; eauto.
Qed.

(** The loop of [Classify] over the profiles, as a fold. *)
Lemma scoreAll_fold finding visit : ∀ scores,
  Forall (λ kv : string * CategoryFeatures.t, aligned kv.2) visit →
  Classifier.scoreAll finding visit scores
  = Returns (fold_left (λ m kv, <[kv.1 := normalizedScore finding kv.2]> m)
               visit scores).
Proof.
  induction visit as [|[k features] visit IH]; intros scores Hall; [done|].
  inversion_clear Hall as [|? ? Ha Hrest]. cbn [Classifier.scoreAll].
  rewrite normalizedScore_returns by done. cbn [mbind outcome_bind].
  by rewrite IH.
Qed.

Lemma fold_insert_list_to_map {V W} (g : V → W) (visit : list (string * V)) :
  fold_left (λ (m : gmap string W) kv, <[kv.1 := g kv.2]> m) visit ∅
  = list_to_map (reverse (prod_map id g <$> visit)).
Proof.
  induction visit as [|kv visit IH] using rev_ind; [done|].
  rewrite fold_left_app, fmap_app, reverse_app. cbn. by rewrite IH.
Qed.

(** Each category is written once, so the order of the visit does not
    show in the scores. *)
Lemma scoreAll_scoresOf c finding range1 :
  well_formed c → visits_all range1 →
  Classifier.scoreAll finding (range1 (Classifier.categoryData c)) ∅
  = Returns (scoresOf c finding).
Proof.
  intros Hwf Hrange.
  pose proof (Hrange (Classifier.categoryData c)) as Hperm.
  rewrite scoreAll_fold.
  2:{ apply Forall_forall. intros [k features] Hin. cbn.
      apply (Hwf k). apply elem_of_map_to_list. by rewrite <- Hperm. }
  f_equal. rewrite fold_insert_list_to_map. unfold scoresOf.
  rewrite <- (list_to_map_to_list (Classifier.categoryData c)) at 2.
  rewrite <- list_to_map_fmap.
  apply list_to_map_proper.
  - rewrite reverse_Permutation.
    assert (Hk : (prod_map id (normalizedScore finding)
                    <$> range1 (Classifier.categoryData c)).*1
                 = (range1 (Classifier.categoryData c)).*1).
    { rewrite <- list_fmap_compose. apply list_fmap_ext. by intros ? [] ?. }
    rewrite Hk, Hperm. apply NoDup_fst_map_to_list.
  - by rewrite reverse_Permutation, Hperm.
Qed.

(** [Classify] on an initialized classifier. *)
Lemma Classify_unfold range1 range2 c finding :
  Classifier.initialized c = true → well_formed c → visits_all range1 →
  Classifier.Classify range1 range2 c finding
  = Returns
      (let best := Classifier.getBestCategory range2 (scoresOf c finding) in
       if bool_decide (Classifier.threshold c ≤ best.2)
       then reclassified finding best.1 best.2 else finding,
       None).
Proof.
  intros Hi Hwf Hrange. unfold Classifier.Classify. rewrite Hi. cbn [negb].
  rewrite scoreAll_scoresOf by done. cbn [mbind outcome_bind].
  destruct (Classifier.getBestCategory range2 (scoresOf c finding)) as [b s].
  cbn. by case_bool_decide.
Qed.

End Classification.

Section ClassifyClaims.
Import ai.
Local Open Scope Qc_scope.

Lemma visits_all_forwards {V} : visits_all (@forwards V).
Proof. by intros m. Qed.

Lemma visits_all_backwards {V} : visits_all (@backwards V).
Proof. intros m. apply reverse_Permutation. Qed.

(** C5: [Classify] returns, and the finding it leaves differs from the one
    it was given in category and confidence at most: when the classifier is
    initialized and the winning normalized score reaches the threshold, the
    category is the winning category and the confidence its score;
    otherwise the finding is unchanged. *)
Theorem Classify_changes_category_and_confidence_only
    range1 range2 c finding :
  well_formed c → visits_all range1 → visits_all range2 →
  ∃ out e best s,
    Classifier.Classify range1 range2 c finding = Returns (out, e)
    ∧ wins (scoresOf c finding) best s
    ∧ out = (if Classifier.initialized c
                && bool_decide (Classifier.threshold c ≤ s)
             then reclassified finding best s else finding)
    ∧ models.ID out = models.ID finding
    ∧ models.Title out = models.Title finding
    ∧ models.Description out = models.Description finding
    ∧ models.Severity_ out = models.Severity_ finding
    ∧ models.Location out = models.Location finding
    ∧ models.CodeSnippet out = models.CodeSnippet finding
    ∧ models.Timestamp out = models.Timestamp finding
    ∧ models.Remediation out = models.Remediation finding.
Proof.
  intros Hwf Hr1 Hr2.
  pose proof (getBestCategory_wins range2 (scoresOf c finding) Hr2) as Hwins.
  destruct (Classifier.initialized c) eqn:Hi.
  - rewrite Classify_unfold by done. cbv zeta.
    destruct (Classifier.getBestCategory range2 (scoresOf c finding)) as [b s].
    cbn [fst snd] in *.
    eexists _, None, b, s. split; [reflexivity|]. split; [exact Hwins|].
    cbn [andb]. split; [reflexivity|].
    by case_bool_decide.
  - destruct (Classifier.getBestCategory range2 (scoresOf c finding)) as [b s].
    exists finding, (Some (Errorf "classifier not initialized")), b, s.
    unfold Classifier.Classify. rewrite Hi. by split_and!.
Qed.

(** The shipped rules and a finding of the Injection category: the
    classifier is well formed, and the finding is reclassified. *)
Lemma Classify_changes_category_and_confidence_only_witness :
  ∃ out e best s,
    Classifier.Classify forwards forwards
      (NewClassifier examples.model "model") examples.sql_finding
    = Returns (out, e)
    ∧ wins (scoresOf (NewClassifier examples.model "model") examples.sql_finding)
        best s
    ∧ out = (if Classifier.initialized (NewClassifier examples.model "model")
                && bool_decide
                     (Classifier.threshold (NewClassifier examples.model "model") ≤ s)
             then reclassified examples.sql_finding best s
             else examples.sql_finding)
    ∧ models.ID out = models.ID examples.sql_finding
    ∧ models.Title out = models.Title examples.sql_finding
    ∧ models.Description out = models.Description examples.sql_finding
    ∧ models.Severity_ out = models.Severity_ examples.sql_finding
    ∧ models.Location out = models.Location examples.sql_finding
    ∧ models.CodeSnippet out = models.CodeSnippet examples.sql_finding
    ∧ models.Timestamp out = models.Timestamp examples.sql_finding
    ∧ models.Remediation out = models.Remediation examples.sql_finding.
Proof.
  apply (Classify_changes_category_and_confidence_only forwards forwards
           (NewClassifier examples.model "model") examples.sql_finding).
  - apply NewClassifier_well_formed.
  - apply visits_all_forwards.
  - apply visits_all_forwards.
Defined.

(** On that example the category becomes Injection, with confidence 1. *)
Example Classify_sql_finding :
  Classifier.Classify forwards forwards
    (NewClassifier examples.model "model") examples.sql_finding
  = Returns (reclassified examples.sql_finding "Injection" 1, None).
Proof. vm_compute. do 3 f_equal. by apply Qc_is_canon. Qed.

(** C1, as stated, fails: two categories tie at the maximal score 1, and
    the category chosen follows the order in which the map of scores is
    visited; in one of the two orders it is not the lexicographically
    smallest one. *)
Lemma Classify_tie_follows_the_order :
  let c := NewClassifier examples.tie_model "model" in
  scoresOf c examples.token_finding !! "Auth" = Some 1
  ∧ scoresOf c examples.token_finding !! "Crypto" = Some 1
  ∧ String.ltb "Auth" "Crypto" = true
  ∧ Classifier.Classify forwards forwards c examples.token_finding
    = Returns (reclassified examples.token_finding "Crypto" 1, None)
  ∧ Classifier.Classify forwards backwards c examples.token_finding
    = Returns (reclassified examples.token_finding "Auth" 1, None).
Proof. repeat split. Qed.

(** C1 (amended): whatever the orders in which the maps are visited,
    [Classify] returns the same error and the same confidence, and the same
    category unless two categories tie at the maximal normalized score; on
    such a tie the category is one of those that tie. *)
Theorem Classify_is_deterministic_up_to_ties
    range1 range2 range1' range2' c finding :
  well_formed c →
  visits_all range1 → visits_all range2 →
  visits_all range1' → visits_all range2' →
  ∃ out out' e,
    Classifier.Classify range1 range2 c finding = Returns (out, e)
    ∧ Classifier.Classify range1' range2' c finding = Returns (out', e)
    ∧ models.Confidence out = models.Confidence out'
    ∧ (models.Category out = models.Category out'
       ∨ ∃ s, scoresOf c finding !! models.Category out = Some s
              ∧ scoresOf c finding !! models.Category out' = Some s
              ∧ ∀ other s', scoresOf c finding !! other = Some s' → s' ≤ s).
Proof.
  intros Hwf Hr1 Hr2 Hr1' Hr2'.
  destruct (Classifier.initialized c) eqn:Hi.
  - rewrite !Classify_unfold by done. cbv zeta.
    pose proof (getBestCategory_wins range2 (scoresOf c finding) Hr2) as Hw.
    pose proof (getBestCategory_wins range2' (scoresOf c finding) Hr2') as Hw'.
    destruct (Classifier.getBestCategory range2 (scoresOf c finding)) as [b s].
    destruct (Classifier.getBestCategory range2' (scoresOf c finding)) as [b' s'].
    cbn [fst snd] in *.
    assert (s = s') as <- by (by eapply wins_score).
    eexists _, _, None. split; [reflexivity|]. split; [reflexivity|].
    case_bool_decide; [|by split; [|left]].
    split; [reflexivity|]. cbn.
    destruct Hw as [(He & -> & _)|[Hl Hmax]], Hw' as [(He' & -> & _)|[Hl' Hmax']].
    + by left.
    + rewrite He in Hl'. by rewrite lookup_empty in Hl'.
    + rewrite He' in Hl. by rewrite lookup_empty in Hl.
    + right. by exists s.
  - exists finding, finding, (Some (Errorf "classifier not initialized")).
    unfold Classifier.Classify. rewrite Hi. split_and!; [done..|by left].
Qed.

(** The shipped rules, visited forwards and backwards. *)
Lemma Classify_is_deterministic_up_to_ties_witness :
  let c := NewClassifier examples.model "model" in
  let finding := examples.sql_finding in
  ∃ out out' e,
    Classifier.Classify forwards forwards c finding = Returns (out, e)
    ∧ Classifier.Classify backwards backwards c finding = Returns (out', e)
    ∧ models.Confidence out = models.Confidence out'
    ∧ (models.Category out = models.Category out'
       ∨ ∃ s, scoresOf c finding !! models.Category out = Some s
              ∧ scoresOf c finding !! models.Category out' = Some s
              ∧ ∀ other s', scoresOf c finding !! other = Some s' → s' ≤ s).
Proof.
  intros c finding.
  apply (Classify_is_deterministic_up_to_ties
           forwards forwards backwards backwards c finding).
  - apply NewClassifier_well_formed.
  - apply visits_all_forwards.
  - apply visits_all_forwards.
  - apply visits_all_backwards.
  - apply visits_all_backwards.
Defined.

(** The shipped rules, the Injection profile and a finding that holds its
    pattern and its three keywords. *)
Lemma full_match_scores_one_witness :
  let features :=
    CategoryFeatures.mk ["(?i)(SELECT|INSERT|UPDATE|DELETE).*\$\{"]
      ["sql"; "database"; "query"] [1] (Q2Qc (4 # 5)) in
  Classifier.calculateScore examples.sql_finding features = Returns 1.
Proof.
  intros features.
  apply (full_match_scores_one examples.model "model" "Injection" features
           examples.sql_finding).
  - reflexivity.
  - repeat constructor.
  - repeat constructor.
Defined.

End ClassifyClaims.

(* ===================================================================== *)
(** * Further properties: the range of the scores *)
(* ===================================================================== *)

Section ScoreRange.
Import ai.
Local Open Scope Qc_scope.

(** Closes [a ≤ b] where the two sides are equal as polynomials. *)
Local Ltac le_by_ring :=
  match goal with |- (?a ≤ ?b)%Qc => replace b with a by ring end;
  apply Qcle_refl.

Lemma Qc_quotient_range (a m : Qc) :
  0 ≤ a → a ≤ m → 0 < m → 0 ≤ a / m ∧ a / m ≤ 1.
Proof.
  intros Ha Ham Hm. pose proof (Qcinv_pos m Hm) as Hi.
  unfold Qcdiv. split.
  - apply Qcmult_nonneg_nonneg; [done|by apply Qclt_le_weak].
  - rewrite <- (Qcmult_inv_r m) by (intros ->; by apply Qclt_not_eq in Hm).
    by apply Qcmult_le_mono_pos_r.
Qed.

(** With weights 1.0 the pattern loop adds at most the number of
    patterns. *)
Lemma patternScore_range snippet patterns weights : ∀ i score,
  (∀ j, (i ≤ j < i + length patterns)%nat → weights !! j = Some 1) →
  ∃ score', Classifier.patternScore snippet patterns weights i score
            = Returns score'
            ∧ score ≤ score'
            ∧ score' ≤ score + Qc_of_Z (Z.of_nat (length patterns)).
Proof.
  induction patterns as [|p ps IH]; intros i score Hw.
  - exists score. split; [done|]. split; [done|].
    cbn. rewrite Nat2Z.inj_0, Z2Qc_inj_0, Qcplus_0_r. done.
  - cbn [Classifier.patternScore length]. rewrite Qc_of_nat_succ.
    destruct (Contains snippet p).
    + rewrite (Hw i) by (cbn; lia).
      destruct (IH (S i) (score + 1)) as (s' & Hs & Hlo & Hhi).
      { intros j Hj. apply Hw. cbn. lia. }
      exists s'. split; [done|]. split.
      * etrans; [|exact Hlo].
        rewrite <- (Qcplus_0_r score) at 1.
        by apply Qcplus_le_mono_l.
      * etrans; [exact Hhi|]. le_by_ring.
    + destruct (IH (S i) score) as (s' & Hs & Hlo & Hhi).
      { intros j Hj. apply Hw. cbn. lia. }
      exists s'. split; [done|]. split; [done|].
      etrans; [exact Hhi|]. apply Qcplus_le_mono_l.
      rewrite <- (Qcplus_0_r (Qc_of_Z _)) at 1. by apply Qcplus_le_mono_l.
Qed.

(** The keyword loop adds at most half the number of keywords. *)
Lemma keywordScore_range description keywords : ∀ score,
  score ≤ Classifier.keywordScore description keywords score
  ∧ Classifier.keywordScore description keywords score
    ≤ score + Qc_of_Z (Z.of_nat (length keywords)) * half.
Proof.
  unfold Classifier.keywordScore.
  induction keywords as [|k ks IH]; intros score.
  - cbn. rewrite Nat2Z.inj_0, Z2Qc_inj_0, Qcmult_0_l, Qcplus_0_r. done.
  - cbn [fold_left length]. rewrite Qc_of_nat_succ.
    assert (Hh : (0 : Qc) ≤ half) by done.
    destruct (Contains _ _).
    + destruct (IH (score + half)) as [Hlo Hhi]. split.
      * etrans; [|exact Hlo].
        rewrite <- (Qcplus_0_r score) at 1. by apply Qcplus_le_mono_l.
      * etrans; [exact Hhi|]. le_by_ring.
    + destruct (IH score) as [Hlo Hhi]. split; [done|].
      etrans; [exact Hhi|]. apply Qcplus_le_mono_l.
      replace ((Qc_of_Z (Z.of_nat (length ks)) + 1) * half)
        with (Qc_of_Z (Z.of_nat (length ks)) * half + half) by ring.
      rewrite <- (Qcplus_0_r (_ * half)) at 1. by apply Qcplus_le_mono_l.
Qed.

(** The normalized score of a profile with unit weights is a number
    between 0 and 1. *)
Lemma calculateScore_range finding features :
  unit_weights features →
  ∃ score, Classifier.calculateScore finding features = Returns score
           ∧ 0 ≤ score ∧ score ≤ 1.
Proof.
  intros [Hw Hne]. unfold Classifier.calculateScore.
  destruct (patternScore_range (models.CodeSnippet finding)
              (CategoryFeatures.Patterns features)
              (CategoryFeatures.Weights features) 0 0)
    as (s & Hs & Hlo & Hhi).
  { intros j Hj. rewrite Hw. apply lookup_replicate_2. lia. }
  rewrite Hs. cbn [mbind outcome_bind].
  destruct (keywordScore_range (models.Description finding)
              (CategoryFeatures.Keywords features) s) as [Hklo Hkhi].
  set (raw := Classifier.keywordScore _ _ s) in *.
  unfold Classifier.maxScore.
  set (P := Qc_of_Z (Z.of_nat (length (CategoryFeatures.Patterns features)))) in *.
  set (K := Qc_of_Z (Z.of_nat (length (CategoryFeatures.Keywords features)))) in *.
  assert (HP : 0 < P).
  { unfold P. destruct (CategoryFeatures.Patterns features); [done|].
    cbn [length]. rewrite Qc_of_nat_succ.
    apply Qcplus_nonneg_pos; [apply Qc_of_nat_nonneg|reflexivity]. }
  assert (Hmax : 0 < P + K * half).
  { apply Qcplus_pos_nonneg; [done|].
    apply Qcmult_nonneg_nonneg; [apply Qc_of_nat_nonneg|done]. }
  rewrite bool_decide_eq_true_2 by done.
  eexists. split; [reflexivity|].
  apply Qc_quotient_range; [by etrans|..|done].
  etrans; [exact Hkhi|]. apply Qcplus_le_mono_r.
  etrans; [exact Hhi|]. rewrite Qcplus_0_l. done.
Qed.

(** X1: for every category profile of a classifier made by [NewClassifier]
    and every finding, [calculateScore] returns, and the score is between 0
    and 1. *)
Theorem score_between_zero_and_one fs modelPath category features finding :
  Classifier.categoryData (NewClassifier fs modelPath) !! category
  = Some features →
  ∃ score, Classifier.calculateScore finding features = Returns score
           ∧ 0 ≤ score ∧ score ≤ 1.
Proof.
  intros Hl. apply calculateScore_range.
  by eapply (NewClassifier_unit_weights fs modelPath).
Qed.

Lemma score_between_zero_and_one_witness :
  ∃ score,
    Classifier.calculateScore examples.token_finding
      (CategoryFeatures.mk ["(?i)os\.Open\(.*\)"] ["file"; "path"; "traversal"]
         [1] (Q2Qc (4 # 5)))
    = Returns score ∧ 0 ≤ score ∧ score ≤ 1.
Proof.
  apply (score_between_zero_and_one examples.model "model" "FileSystem").
  reflexivity.
Defined.

End ScoreRange.

(* ===================================================================== *)
(** * Further properties: classification *)
(* ===================================================================== *)

Section ClassifyMore.
Import ai.
Local Open Scope Qc_scope.

Lemma unit_weights_well_formed c :
  map_Forall (λ _, unit_weights) (Classifier.categoryData c) → well_formed c.
Proof.
  intros Hu category features Hl. apply unit_weights_aligned. by eapply Hu.
Qed.

Lemma scoresOf_range c finding category s :
  map_Forall (λ _, unit_weights) (Classifier.categoryData c) →
  scoresOf c finding !! category = Some s → 0 ≤ s ∧ s ≤ 1.
Proof.
  intros Hu. unfold scoresOf. rewrite lookup_fmap.
  destruct (Classifier.categoryData c !! category) as [features|] eqn:Hl;
    [|done].
  cbn. intros [= <-].
  destruct (calculateScore_range finding features) as (s & Hs & Hr);
    [by eapply Hu|].
  unfold normalizedScore. by rewrite Hs.
Qed.

Lemma wins_range c finding best s :
  map_Forall (λ _, unit_weights) (Classifier.categoryData c) →
  wins (scoresOf c finding) best s → 0 ≤ s ∧ s ≤ 1.
Proof.
  intros Hu [(_ & _ & ->)|[Hl _]]; [done|]. by eapply scoresOf_range.
Qed.

(** X2: on a classifier whose profiles have one weight 1.0 per pattern and
    at least one pattern -- every classifier [NewClassifier] makes --
    [Classify] returns for every finding, and a confidence that was between
    0 and 1 still is. *)
Theorem Classify_keeps_confidence_in_range range1 range2 c finding :
  map_Forall (λ _, unit_weights) (Classifier.categoryData c) →
  visits_all range1 → visits_all range2 →
  0 ≤ models.Confidence finding ∧ models.Confidence finding ≤ 1 →
  ∃ out e,
    Classifier.Classify range1 range2 c finding = Returns (out, e)
    ∧ 0 ≤ models.Confidence out ∧ models.Confidence out ≤ 1.
Proof.
  intros Hu Hr1 Hr2 Hconf.
  destruct (Classifier.initialized c) eqn:Hi.
  - rewrite Classify_unfold by (done || by apply unit_weights_well_formed).
    cbv zeta.
    pose proof (getBestCategory_wins range2 (scoresOf c finding) Hr2) as Hw.
    apply (wins_range c finding _ _ Hu) in Hw.
    eexists _, None. split; [reflexivity|]. by case_bool_decide.
  - exists finding, (Some (Errorf "classifier not initialized")).
    unfold Classifier.Classify. by rewrite Hi.
Qed.

Lemma Classify_keeps_confidence_in_range_witness :
  ∃ out e,
    Classifier.Classify forwards backwards
      (NewClassifier examples.tie_model "model") examples.token_finding
    = Returns (out, e)
    ∧ 0 ≤ models.Confidence out ∧ models.Confidence out ≤ 1.
Proof.
  apply (Classify_keeps_confidence_in_range forwards backwards
           (NewClassifier examples.tie_model "model") examples.token_finding).
  - apply NewClassifier_unit_weights.
  - apply visits_all_forwards.
  - apply visits_all_backwards.
  - split; vm_compute; discriminate.
Defined.

(** The scores read the code snippet and the description only. *)
Lemma scoresOf_reclassified c finding category confidence :
  scoresOf c (reclassified finding category confidence) = scoresOf c finding.
Proof. reflexivity. Qed.

(** X3: classifying again changes nothing: with the same visiting orders,
    [Classify] on the finding it has left returns that finding and the same
    error. *)
Theorem Classify_again_changes_nothing range1 range2 c finding out e :
  well_formed c → visits_all range1 →
  Classifier.Classify range1 range2 c finding = Returns (out, e) →
  Classifier.Classify range1 range2 c out = Returns (out, e).
Proof.
  intros Hwf Hr1.
  destruct (Classifier.initialized c) eqn:Hi.
  - intros Hcl. rewrite Classify_unfold in Hcl by done. cbv zeta in Hcl.
    destruct (Classifier.getBestCategory range2 (scoresOf c finding))
      as [b s] eqn:Hb. cbn [fst snd] in Hcl.
    destruct (bool_decide (Classifier.threshold c ≤ s)) eqn:Ht;
      injection Hcl as <- <-; rewrite Classify_unfold by done; cbv zeta.
    + rewrite scoresOf_reclassified, Hb. cbn [fst snd]. by rewrite Ht.
    + rewrite Hb. cbn [fst snd]. by rewrite Ht.
  - unfold Classifier.Classify. rewrite Hi. cbn. by intros [= <- <-].
Qed.

Lemma Classify_again_changes_nothing_witness :
  Classifier.Classify forwards forwards
    (NewClassifier examples.tie_model "model")
    (reclassified examples.token_finding "Crypto" 1)
  = Returns (reclassified examples.token_finding "Crypto" 1, None).
Proof.
  apply (Classify_again_changes_nothing forwards forwards
           (NewClassifier examples.tie_model "model") examples.token_finding).
  - apply NewClassifier_well_formed.
  - apply visits_all_forwards.
  - reflexivity.
Defined.

Lemma normalizedScore_retune threshold finding features :
  normalizedScore finding (retune threshold features)
  = normalizedScore finding features.
Proof. reflexivity. Qed.

(** X4: the threshold stored in each profile is never read: replacing it in
    every profile changes nothing to what [Classify] returns, whatever the
    order in which the profiles are visited. *)
Theorem Classify_ignores_profile_thresholds
    range1 range1' range2 c threshold finding :
  well_formed c → visits_all range1 → visits_all range1' →
  Classifier.Classify range1 range2
    (Classifier.set_categoryData c
       (retune threshold <$> Classifier.categoryData c)) finding
  = Classifier.Classify range1' range2 c finding.
Proof.
  intros Hwf Hr1 Hr1'.
  set (c' := Classifier.set_categoryData c _).
  destruct (Classifier.initialized c) eqn:Hi.
  - assert (Hwf' : well_formed c').
    { intros category features. unfold c'. cbn. rewrite lookup_fmap.
      destruct (Classifier.categoryData c !! category) as [old|] eqn:Hl;
        [|done].
      cbn. intros [= <-]. exact (Hwf category old Hl). }
    rewrite !Classify_unfold by done.
    assert (Hs : scoresOf c' finding = scoresOf c finding).
    { unfold scoresOf, c'. cbn. rewrite <- map_fmap_compose.
      apply map_fmap_ext. intros ? features _. apply normalizedScore_retune. }
    by rewrite Hs.
  - unfold Classifier.Classify. cbn. by rewrite Hi.
Qed.

Lemma Classify_ignores_profile_thresholds_witness :
  let c := NewClassifier examples.model "model" in
  Classifier.Classify forwards forwards
    (Classifier.set_categoryData c (retune 1 <$> Classifier.categoryData c))
    examples.sql_finding
  = Classifier.Classify backwards forwards c examples.sql_finding.
Proof.
  intros c.
  apply (Classify_ignores_profile_thresholds forwards backwards forwards c 1
           examples.sql_finding).
  - apply NewClassifier_well_formed.
  - apply visits_all_forwards.
  - apply visits_all_backwards.
Defined.

End ClassifyMore.

(* ===================================================================== *)
(** * Further properties: the profiles [loadCategories] builds *)
(* ===================================================================== *)

Section Profiles.
Import ai.
Local Open Scope Qc_scope.

Lemma addRule_threshold c rule :
  Classifier.threshold (Classifier.addRule c rule) = Classifier.threshold c.
Proof. reflexivity. Qed.

Lemma fold_addRule_threshold rules : ∀ c,
  Classifier.threshold (fold_left Classifier.addRule rules c)
  = Classifier.threshold c.
Proof.
  induction rules as [|r rules IH]; intros c; cbn; [done|]. by rewrite IH.
Qed.

Lemma extend_nil old : extend old (CategoryFeatures.Threshold old) [] = old.
Proof.
  destruct old. unfold extend. cbn. by rewrite !app_nil_r.
Qed.

Lemma extend_cons old threshold rule rules :
  extend (extend old threshold [rule]) threshold rules
  = extend old threshold (rule :: rules).
Proof.
  unfold extend. cbn. rewrite !app_nil_r. f_equal.
  - by rewrite <- app_assoc.
  - by rewrite <- app_assoc.
  - by rewrite <- app_assoc.
Qed.

Lemma addRule_profile c rule :
  Classifier.categoryData (Classifier.addRule c rule) !! Rule.Category rule
  = Some (extend (default CategoryFeatures.zero
                    (Classifier.categoryData c !! Rule.Category rule))
                 (Classifier.threshold c) [rule]).
Proof.
  unfold Classifier.addRule.
  cbn [Classifier.categoryData Classifier.set_categoryData].
  rewrite lookup_insert_eq. unfold extend. cbn. by rewrite app_nil_r.
Qed.

Lemma addRule_other c rule category :
  Rule.Category rule ≠ category →
  Classifier.categoryData (Classifier.addRule c rule) !! category
  = Classifier.categoryData c !! category.
Proof.
  intros Hne. unfold Classifier.addRule.
  cbn [Classifier.categoryData Classifier.set_categoryData].
  by rewrite lookup_insert_ne.
Qed.

(** The profile of a category after a list of rules: the rules of other
    categories leave it alone, and its own rules are folded in, in order. *)
Lemma fold_addRule_lookup rules : ∀ c category,
  Classifier.categoryData (fold_left Classifier.addRule rules c) !! category
  = match rules_of category rules with
    | [] => Classifier.categoryData c !! category
    | own =>
        Some (extend (default CategoryFeatures.zero
                        (Classifier.categoryData c !! category))
                     (Classifier.threshold c) own)
    end.
Proof.
  induction rules as [|r rules IH]; intros c category; [done|].
  cbn [fold_left]. rewrite IH. unfold rules_of. rewrite filter_cons.
  rewrite addRule_threshold.
  destruct (decide (Rule.Category r = category)) as [<-|Hne].
  - rewrite addRule_profile. cbn [default].
    destruct (filter _ rules) as [|r' own]; [done|].
    unfold id. by rewrite extend_cons.
  - by rewrite addRule_other.
Qed.

(** X5: loaded into a classifier with no profile yet, a rules file gives
    each category that has a rule the profile made of the patterns of its
    rules in file order, the concatenation of their keywords, one weight 1.0
    per rule and the classifier's threshold; a category without a rule has
    no profile. *)
Theorem loadCategories_folds_rules_by_category fs c path rules category :
  Classifier.categoryData c = ∅ →
  fs !! path = Some (JsonText (JObj [("rules", JArr (encode <$> rules))])) →
  Classifier.categoryData (Classifier.loadCategories fs c path).1 !! category
  = match rules_of category rules with
    | [] => None
    | own =>
        Some (CategoryFeatures.mk
                (Rule.Pattern <$> own) (own ≫= Rule.Keywords)
                (replicate (length own) 1) (Classifier.threshold c))
    end.
Proof.
  intros Hempty Hf. rewrite (loadCategories_accepts_object _ _ _ rules Hf).
  cbn [fst]. rewrite fold_addRule_lookup, Hempty, lookup_empty.
  by destruct (rules_of category rules).
Qed.

Lemma loadCategories_folds_rules_by_category_witness :
  let c := Classifier.mk "model" (Q2Qc (4 # 5)) [] false ModelConfig.zero ∅ in
  Classifier.categoryData
    (Classifier.loadCategories examples.tie_model c "model/rules.json").1
    !! "Auth"
  = Some (CategoryFeatures.mk ["token"] [] [1] (Q2Qc (4 # 5))).
Proof.
  intros c.
  apply (loadCategories_folds_rules_by_category examples.tie_model c
           "model/rules.json"
           [Rule.mk "T-1" "Token in code" "token" "HIGH" "Auth" [] "token";
            Rule.mk "T-2" "Token in code" "token" "HIGH" "Crypto" [] "token"]
           "Auth"); reflexivity.
Defined.

(** The empty string is a substring of every string. *)
Lemma Contains_empty s : Contains s "" = true.
Proof. destruct s; reflexivity. Qed.

(** X6: a rule with an empty pattern and no keyword, the first of its
    category, gives the classifier a profile that every finding matches in
    full -- the empty pattern is a substring of every snippet -- while the
    detector synthesizes no finding for such a rule. *)
Theorem empty_pattern_matches_everything
    (c : Classifier.t) (d : Detector.t) rule finding findings :
  Rule.Pattern rule = "" → Rule.Keywords rule = [] →
  Classifier.categoryData c !! Rule.Category rule = None →
  (∃ features,
     Classifier.categoryData (Classifier.addRule c rule) !! Rule.Category rule
     = Some features
     ∧ Classifier.calculateScore finding features = Returns 1)
  ∧ Detector.detectAdditionalIssues (Detector.set_rules d [rule]) findings = [].
Proof.
  intros Hp Hk Hnew. split.
  - eexists. split.
    + unfold Classifier.addRule. cbn [Classifier.categoryData
        Classifier.set_categoryData]. apply lookup_insert_eq.
    + rewrite Hnew, Hp, Hk. cbn [default CategoryFeatures.zero
        CategoryFeatures.Patterns CategoryFeatures.Keywords
        CategoryFeatures.Weights app].
      apply full_match.
      * split; [reflexivity|done].
      * cbn. repeat constructor. apply Contains_empty.
      * constructor.
  - rewrite detectAdditionalIssues_spec. cbn [Detector.rules Detector.set_rules].
    rewrite filter_cons, decide_False by (by rewrite Hp; intros []).
    done.
Qed.

Lemma empty_pattern_matches_everything_witness :
  let c := Classifier.mk "model" (Q2Qc (4 # 5)) [] true ModelConfig.zero ∅ in
  let rule := Rule.mk "R-9" "No pattern" "" "LOW" "Misc" [] "nothing to match" in
  (∃ features,
     Classifier.categoryData (Classifier.addRule c rule) !! "Misc"
     = Some features
     ∧ Classifier.calculateScore examples.token_finding features = Returns 1)
  ∧ Detector.detectAdditionalIssues
      (Detector.set_rules (NewDetector ∅ "model") [rule]) [] = [].
Proof.
  intros c rule.
  apply (empty_pattern_matches_everything c (NewDetector ∅ "model") rule
           examples.token_finding []); reflexivity.
Defined.

End Profiles.

(* ===================================================================== *)
(** * Further properties: what the configuration file leaves unset *)
(* ===================================================================== *)

Section ConfigDefaults.
Import ai.
Local Open Scope Qc_scope.

Lemma configFile_members_lacks ms : ∀ cur cfg,
  lacks "modelSettings" ms →
  Json.members Classifier.configFile_field cur ms = Ok cfg →
  Classifier.ModelSettings cfg = Classifier.ModelSettings cur.
Proof.
  induction ms as [|[key v] ms IH]; intros cur cfg Hl; cbn [Json.members].
  - by intros [= <-].
  - inversion_clear Hl as [|? ? Hkey Hrest]. cbn in Hkey.
    unfold Classifier.configFile_field at 1. rewrite Hkey.
    destruct (Json.key_is key "categories").
    + unfold Json.into.
      destruct (Json.slice_ _ _ _ _ v) as [x|e]; [|done].
      intros Hm. by rewrite (IH _ _ Hrest Hm).
    + intros Hm. by rewrite (IH _ _ Hrest Hm).
Qed.

Lemma Classifier_loadConfig_lacks fs c c' path ms :
  fs !! path = Some (JsonText (JObj ms)) →
  lacks "modelSettings" ms →
  Classifier.loadConfig fs c path = (c', None) →
  Classifier.threshold c' = 0.
Proof.
  intros Hf Hl. unfold Classifier.loadConfig, ReadFile. rewrite Hf.
  unfold Json.Unmarshal, Json.parse, Classifier.decode_configFile, Json.struct_.
  destruct (Json.members _ _ ms) as [cfg|e] eqn:Hm; [|done].
  intros [= <-]. cbn.
  by rewrite (configFile_members_lacks _ _ _ Hl Hm).
Qed.

Lemma Classifier_loadCategories_threshold fs c path :
  Classifier.threshold (Classifier.loadCategories fs c path).1
  = Classifier.threshold c.
Proof.
  unfold Classifier.loadCategories.
  destruct (ReadFile fs path) as [data|e]; [|done].
  destruct (Json.Unmarshal _ data _) as [rules|e]; [|done].
  apply fold_addRule_threshold.
Qed.

(** The threshold of an initialized classifier is the one [loadConfig]
    has set. *)
Lemma NewClassifier_threshold fs modelPath :
  Classifier.initialized (NewClassifier fs modelPath) = true →
  ∃ c1,
    Classifier.loadConfig fs
      (Classifier.mk modelPath (Q2Qc (4 # 5)) [] false ModelConfig.zero ∅)
      (Join modelPath "config.json") = (c1, None)
    ∧ Classifier.threshold (NewClassifier fs modelPath)
      = Classifier.threshold c1.
Proof.
  unfold NewClassifier, Classifier.initialize.
  set (c0 := Classifier.mk _ _ _ _ _ _).
  change (Classifier.modelPath c0) with modelPath.
  pose proof (Classifier_loadConfig_frame fs c0 (Join modelPath "config.json"))
    as (Hi & _ & _).
  destruct (Classifier.loadConfig fs c0 _) as [c1 [e|]]; cbn in Hi.
  { intros Hinit. by rewrite Hi in Hinit. }
  pose proof (Classifier_loadCategories_initialized fs c1
                (Join (Classifier.modelPath c1) "rules.json")) as Hi'.
  pose proof (Classifier_loadCategories_threshold fs c1
                (Join (Classifier.modelPath c1) "rules.json")) as Ht.
  destruct (Classifier.loadCategories fs c1 _) as [c2 [e|]];
    cbn in Hi', Ht.
  { intros Hinit. by rewrite Hi', Hi in Hinit. }
  intros _. exists c1. by split.
Qed.

(** With a threshold of 0 or less the winner is always written. *)
Lemma Classify_low_threshold range1 range2 c finding :
  map_Forall (λ _, unit_weights) (Classifier.categoryData c) →
  Classifier.initialized c = true →
  Classifier.threshold c ≤ 0 →
  visits_all range1 → visits_all range2 →
  ∃ best s,
    Classifier.Classify range1 range2 c finding
    = Returns (reclassified finding best s, None)
    ∧ wins (scoresOf c finding) best s.
Proof.
  intros Hu Hi Ht Hr1 Hr2.
  rewrite Classify_unfold by (done || by apply unit_weights_well_formed).
  cbv zeta.
  pose proof (getBestCategory_wins range2 (scoresOf c finding) Hr2) as Hw.
  destruct (Classifier.getBestCategory range2 (scoresOf c finding)) as [b s].
  cbn [fst snd] in *. exists b, s. split; [|done].
  rewrite bool_decide_eq_true_2; [done|].
  etrans; [exact Ht|]. by apply (wins_range c finding b s).
Qed.

(** X7: a config.json that is an object without a [modelSettings] member
    replaces the default threshold 0.8 by 0; the classifier, once
    initialized, then overwrites the category and the confidence of every
    finding with a winner of the scores, however low its score. *)
Theorem missing_threshold_reclassifies_everything
    fs modelPath ms range1 range2 finding :
  fs !! Join modelPath "config.json" = Some (JsonText (JObj ms)) →
  lacks "modelSettings" ms →
  Classifier.initialized (NewClassifier fs modelPath) = true →
  visits_all range1 → visits_all range2 →
  Classifier.threshold (NewClassifier fs modelPath) = 0
  ∧ ∃ best s,
      Classifier.Classify range1 range2 (NewClassifier fs modelPath) finding
      = Returns (reclassified finding best s, None)
      ∧ wins (scoresOf (NewClassifier fs modelPath) finding) best s.
Proof.
  intros Hf Hl Hi Hr1 Hr2.
  destruct (NewClassifier_threshold fs modelPath Hi) as (c1 & Hc1 & Ht).
  assert (Hzero : Classifier.threshold (NewClassifier fs modelPath) = 0).
  { rewrite Ht. by eapply Classifier_loadConfig_lacks. }
  split; [exact Hzero|].
  apply Classify_low_threshold; try done.
  - apply NewClassifier_unit_weights.
  - by rewrite Hzero.
Qed.

Lemma missing_threshold_reclassifies_everything_witness :
  let fs : gmap string file :=
    {[ "model/config.json" := JsonText (JObj [("categories", JArr [])]);
       "model/rules.json" := JsonText configs.rules_json ]} in
  Classifier.threshold (NewClassifier fs "model") = 0
  ∧ ∃ best s,
      Classifier.Classify forwards forwards (NewClassifier fs "model")
        examples.token_finding
      = Returns (reclassified examples.token_finding best s, None)
      ∧ wins (scoresOf (NewClassifier fs "model") examples.token_finding)
          best s.
Proof.
  intros fs.
  apply (missing_threshold_reclassifies_everything fs "model"
           [("categories", JArr [])] forwards forwards examples.token_finding).
  - reflexivity.
  - repeat constructor.
  - reflexivity.
  - apply visits_all_forwards.
  - apply visits_all_forwards.
Defined.

Lemma DetectorConfig_members_lacks ms : ∀ cur cfg,
  lacks "maxFindings" ms →
  Json.members DetectorConfig.field cur ms = Ok cfg →
  DetectorConfig.MaxFindings cfg = DetectorConfig.MaxFindings cur.
Proof.
  induction ms as [|[key v] ms IH]; intros cur cfg Hl; cbn [Json.members].
  - by intros [= <-].
  - inversion_clear Hl as [|? ? Hkey Hrest]. cbn in Hkey.
    unfold DetectorConfig.field at 1. rewrite Hkey.
    destruct (Json.key_is key "confidence").
    + unfold Json.into.
      destruct (Json.float64_ _ v) as [x|e]; [|done].
      intros Hm. by rewrite (IH _ _ Hrest Hm).
    + intros Hm. by rewrite (IH _ _ Hrest Hm).
Qed.

Lemma loadConfig_lacks fs path ms config :
  fs !! path = Some (JsonText (JObj ms)) →
  lacks "maxFindings" ms →
  loadConfig fs path = Ok config →
  DetectorConfig.MaxFindings config = 0%Z.
Proof.
  intros Hf Hl. unfold loadConfig, ReadFile. rewrite Hf.
  unfold Json.Unmarshal, Json.parse, DetectorConfig.decode, Json.struct_.
  intros Hm. by rewrite (DetectorConfig_members_lacks _ _ _ Hl Hm).
Qed.

(** The bound of an initialized detector whose config.json is present is
    the one the file gives. *)
Lemma NewDetector_maxFindings fs modelPath :
  Stat_ok fs (Join modelPath "config.json") = true →
  Detector.initialized (NewDetector fs modelPath) = true →
  ∃ config,
    loadConfig fs (Join modelPath "config.json") = Ok config
    ∧ Detector.maxFindings (NewDetector fs modelPath)
      = DetectorConfig.MaxFindings config.
Proof.
  intros Hs. unfold NewDetector, Detector.initialize.
  set (d0 := Detector.mk _ _ _ _ _).
  pose proof (initRules_frame fs d0) as [Hi Hp].
  destruct (Detector.initRules fs d0) as [d1 [e|]]; cbn in Hi, Hp.
  { intros Hinit. by rewrite Hi in Hinit. }
  unfold Detector.initConfig. rewrite Hp.
  change (Detector.modelPath d0) with modelPath. rewrite Hs.
  destruct (loadConfig fs _) as [config|e].
  - intros _. by exists config.
  - intros Hinit. by rewrite Hi in Hinit.
Qed.

(** X8: a config.json that is an object without a [maxFindings] member --
    the configuration of the classifier, which is read from the same file,
    is one -- sets the bound of the detector to 0 instead of the default
    100: [Analyze] on the initialized detector then returns no finding at
    all, and no error. *)
Theorem config_without_maxFindings_empties_Analyze fs modelPath ms findings :
  fs !! Join modelPath "config.json" = Some (JsonText (JObj ms)) →
  lacks "maxFindings" ms →
  Detector.initialized (NewDetector fs modelPath) = true →
  Detector.maxFindings (NewDetector fs modelPath) = 0%Z
  ∧ Detector.Analyze (NewDetector fs modelPath) findings = Returns ([], None).
Proof.
  intros Hf Hl Hi.
  destruct (NewDetector_maxFindings fs modelPath) as (config & Hc & Hm);
    [|done|].
  { unfold Stat_ok. apply bool_decide_eq_true. rewrite Hf. eauto. }
  assert (Hzero : Detector.maxFindings (NewDetector fs modelPath) = 0%Z).
  { rewrite Hm. by eapply loadConfig_lacks. }
  split; [exact Hzero|].
  rewrite Analyze_unfold by done.
  rewrite prioritizeFindings_take by (rewrite Hzero; lia).
  by rewrite Hzero.
Qed.

Lemma config_without_maxFindings_empties_Analyze_witness :
  let fs : gmap string file :=
    {[ "model/config.json" := JsonText (examples.config_json (Q2Qc (4 # 5)));
       "model/rules.json" := JsonText (JArr (encode <$> configs.rules)) ]} in
  Detector.maxFindings (NewDetector fs "model") = 0%Z
  ∧ Detector.Analyze (NewDetector fs "model") [examples.sql_finding]
    = Returns ([], None).
Proof.
  intros fs.
  apply (config_without_maxFindings_empties_Analyze fs "model"
           [("modelSettings",
             JObj [("threshold", JReal (Q2Qc (4 # 5))); ("batchSize", JInt 32);
                   ("enableCache", JBool true)]);
            ("categories",
             JArr [JStr "Injection"; JStr "Security"; JStr "FileSystem"])]
           [examples.sql_finding]).
  - reflexivity.
  - repeat constructor.
  - reflexivity.
Defined.

(** X9: with a negative bound -- a config.json can set one -- [Analyze] on
    an initialized detector panics on every input, the empty one too: the
    length of the findings always exceeds the bound, and the slice
    expression is out of range. *)
Theorem negative_maxFindings_panics d findings :
  Detector.initialized d = true →
  (Detector.maxFindings d < 0)%Z →
  Detector.Analyze d findings = Panics "slice bounds out of range".
Proof.
  intros Hi Hk. rewrite Analyze_unfold by done.
  by rewrite prioritizeFindings_negative.
Qed.

Lemma negative_maxFindings_panics_witness :
  let fs : gmap string file :=
    {[ "model/config.json" := JsonText (JObj [("maxFindings", JInt (-1))]) ]} in
  Detector.Analyze (NewDetector fs "model") []
  = Panics "slice bounds out of range".
Proof.
  intros fs.
  apply (negative_maxFindings_panics (NewDetector fs "model") []).
  - reflexivity.
  - reflexivity.
Defined.

(** X10: the enhanced originals come first and are cut last: [Analyze]
    returns the enhanced first [maxFindings] originals, followed by as many
    synthesized findings as there is room left after all the originals. *)
Theorem Analyze_keeps_originals_first d findings :
  Detector.initialized d = true →
  (0 ≤ Detector.maxFindings d)%Z →
  let k := Z.to_nat (Detector.maxFindings d) in
  Detector.Analyze d findings
  = Returns
      ((Detector.enhanceFinding d <$> take k findings)
       ++ take (k - length findings)
            (Detector.ruleFinding
             <$> filter (λ rule, Rule.Pattern rule ≠ "") (Detector.rules d)),
       None).
Proof.
  intros Hi Hk k. rewrite Analyze_unfold by done.
  rewrite prioritizeFindings_take by done. fold k.
  cbn [mbind outcome_bind].
  by rewrite take_app, fmap_take, length_fmap.
Qed.

Lemma Analyze_keeps_originals_first_witness :
  let rule id := Rule.mk id "n" "p" "LOW" "c" [] "d" in
  let d := Detector.mk "model" (Q2Qc (3 # 4)) 2 true [rule "1"; rule "2"] in
  Detector.Analyze d [models.zero; examples.sql_finding; examples.token_finding]
  = Returns
      ([Detector.enhanceFinding d models.zero;
        Detector.enhanceFinding d examples.sql_finding], None).
Proof.
  intros rule d.
  apply (Analyze_keeps_originals_first d
           [models.zero; examples.sql_finding; examples.token_finding]).
  - reflexivity.
  - cbn. lia.
Defined.

End ConfigDefaults.

(* ===================================================================== *)
(** * Further properties: the scan and the report *)
(* ===================================================================== *)

Section ScanAndReport.
Import ai reporting.

Lemma Walk_first_error s fs tree : ∀ findings,
  scanner.Walk s fs tree findings = (findings, first_error tree).
Proof.
  unfold first_error.
  induction tree as [|v tree IH]; intros findings; cbn [scanner.Walk]; [done|].
  unfold scanner.walkFn. cbn [omap list_omap].
  destruct (scanner.err v) as [e|]; [done|].
  destruct (scanner.IsDir v); [apply IH|].
  cbn. rewrite app_nil_r. apply IH.
Qed.

(** X11: [Scan] returns the first error the walk hands to its function, as
    it is -- the wrapping with the path of the file never happens, as
    [analyzeFile] never fails -- and no error when the walk hands none; in
    both cases it returns no finding. *)
Theorem Scan_returns_first_walk_error s fs tree :
  scanner.Scan s fs tree = ([], first_error tree).
Proof. apply Walk_first_error. Qed.

(** The template of the report does not parse. *)
Lemma htmlTemplate_does_not_parse :
  template.Parse [] htmlTemplate
  = Err (Errorf ("function " +:+ configs.dq +:+ "toLowerCase"
                 +:+ configs.dq +:+ " not defined")).
Proof. vm_compute. reflexivity. Qed.

(** X12: [Generate] returns no error exactly when the format is [json] and
    both creating the file and encoding the report succeed; with any other
    format, [html] included, it touches no file. *)
Theorem Generate_succeeds_only_as_json w r findings config target duration :
  ((Generate w r findings config target duration).2 = None
   ↔ OutputFormat r = "json"
     ∧ create w (OutputPath r) = None
     ∧ encode w (createReport w r findings config target duration) = None)
  ∧ (OutputFormat r ≠ "json" →
     (Generate w r findings config target duration).1 = []).
Proof.
  unfold Generate. cbv zeta.
  destruct (decide (OutputFormat r = "json")) as [Hj|Hj].
  - split; [|done]. unfold generateJSON.
    destruct (create w (OutputPath r)) as [e|].
    { split; [done|]. by intros (_ & ? & _). }
    destruct (encode w _) as [e|].
    { split; [done|]. by intros (_ & _ & ?). }
    by split.
  - assert (Hfail :
      (if decide (OutputFormat r = "html")
       then generateHTML w r (createReport w r findings config target duration)
       else ([], Some (Errorf ("unsupported format: " +:+ OutputFormat r)))).2
      ≠ None
      ∧ (if decide (OutputFormat r = "html")
         then generateHTML w r (createReport w r findings config target duration)
         else ([], Some (Errorf ("unsupported format: " +:+ OutputFormat r)))).1
        = []).
    { destruct (decide (OutputFormat r = "html")); [|done].
      unfold generateHTML. by rewrite htmlTemplate_does_not_parse. }
    destruct Hfail as [Herr Hev]. split; [|done].
    split; [done|]. by intros (? & _).
Qed.

Lemma Generate_succeeds_only_as_json_witness :
  let w := mkEnv 1700000000 1700000001 (λ _, "1ms") (λ _, None) (λ _, None)
             (λ _, None) in
  (Generate w (New "JSON" "out.JSON") [] (mkConfig "dev" [] "" true 30)
     "." 1700000000).1 = [].
Proof.
  intros w.
  apply (Generate_succeeds_only_as_json w (New "JSON" "out.JSON")).
  discriminate.
Defined.

Lemma Generate_html_fails_at_parse w r findings config target duration :
  OutputFormat r = "html" →
  Generate w r findings config target duration
  = ([], Some (Wrapf "failed to parse HTML template"
                 (Errorf ("function " +:+ configs.dq +:+ "toLowerCase"
                          +:+ configs.dq +:+ " not defined")))).
Proof.
  intros Hf. unfold Generate. cbv zeta. rewrite Hf.
  rewrite decide_False by done. rewrite decide_True by done.
  unfold generateHTML. by rewrite htmlTemplate_does_not_parse.
Qed.

(** X13: with the format [html], [Generate] fails for every report: the
    template calls a function, [toLowerCase], that no template has and that
    is not registered, so parsing it fails, before the output file is
    created. *)
Theorem Generate_html_always_fails w r findings config target duration :
  OutputFormat r = "html" →
  Generate w r findings config target duration
  = ([], Some (Wrapf "failed to parse HTML template"
                 (Errorf ("function " +:+ configs.dq +:+ "toLowerCase"
                          +:+ configs.dq +:+ " not defined")))).
Proof.
  apply Generate_html_fails_at_parse.
Qed.

Lemma Generate_html_always_fails_witness :
  let w := mkEnv 1700000000 1700000000 (λ _, "1ms") (λ _, None) (λ _, None)
             (λ _, None) in
  (Generate w (New "html" "security-report.html") [examples.sql_finding]
     (mkConfig "dev" ["SEC-001"; "SEC-002"] "Security Scan" true 30)
     "." 1700000000).1 = [].
Proof.
  intros w.
  rewrite (Generate_html_always_fails w (New "html" "security-report.html"));
    reflexivity.
Defined.

(** X14: when [Generate] succeeds, the file at the output path has been
    created and one report written to it; the report holds the findings as
    they were given, in their order, a total equal to their number, the
    configuration and the target given, and the id SCAN-<seconds>. *)
Theorem Generate_writes_the_findings
    w r findings config target duration events :
  Generate w r findings config target duration = (events, None) →
  ∃ report,
    events = [Created (OutputPath r); Written (OutputPath r) report]
    ∧ Findings report = findings
    ∧ reporter.TotalFindings (SummaryStats report) = Z.of_nat (length findings)
    ∧ ScannerConfig report = config
    ∧ Target report = target
    ∧ ScanID report = "SCAN-" +:+ pretty (now_id w).
Proof.
  unfold Generate. cbv zeta.
  destruct (decide (OutputFormat r = "json")) as [Hj|Hj].
  - unfold generateJSON.
    destruct (create w (OutputPath r)) as [e|]; [done|].
    destruct (encode w _) as [e|]; [done|].
    intros [= <-]. eexists. split; [reflexivity|].
    unfold createReport.
    cbn [Findings SummaryStats ScannerConfig Target ScanID].
    split; [reflexivity|]. split; [|by repeat split].
    unfold reporter.calculateStats. rewrite fold_count_total. cbn. lia.
  - destruct (decide (OutputFormat r = "html")); [|done].
    unfold generateHTML. by rewrite htmlTemplate_does_not_parse.
Qed.

Lemma Generate_writes_the_findings_witness :
  let w := mkEnv 1700000000 1700000001 (λ _, "1ms") (λ _, None) (λ _, None)
             (λ _, None) in
  let config := mkConfig "dev" ["SEC-001"; "SEC-002"] "Security Scan" true 30 in
  ∃ report,
    [Created "out.json";
     Written "out.json"
       (createReport w (New "json" "out.json") [examples.sql_finding]
          config "." 1700000000)]
    = [Created "out.json"; Written "out.json" report]
    ∧ Findings report = [examples.sql_finding]
    ∧ reporter.TotalFindings (SummaryStats report) = 1%Z
    ∧ ScannerConfig report = config
    ∧ Target report = "."
    ∧ ScanID report = "SCAN-" +:+ pretty 1700000000%Z.
Proof.
  intros w config.
  apply (Generate_writes_the_findings w (New "json" "out.json")
           [examples.sql_finding] config "." 1700000000).
  reflexivity.
Defined.

(** X20: the statistics of the findings the detector synthesizes: the total
    is the number of rules with a pattern, and the five counters add up to
    the number of those whose severity is one of the five constants; a rule
    with any other severity text, or none, is counted in the total only. *)
Theorem synthesized_findings_statistics (d : Detector.t) findings :
  reporter.TotalFindings
    (reporter.calculateStats (Detector.detectAdditionalIssues d findings))
  = Z.of_nat (length (filter (λ rule, Rule.Pattern rule ≠ "") (Detector.rules d)))
  ∧ reporter.severity_sum
      (reporter.calculateStats (Detector.detectAdditionalIssues d findings))
    = Z.of_nat
        (length
           (filter (λ rule, reporter.known (Rule.Severity rule) = true)
              (filter (λ rule, Rule.Pattern rule ≠ "") (Detector.rules d)))).
Proof.
  rewrite detectAdditionalIssues_spec. split.
  - unfold reporter.calculateStats. rewrite fold_count_total, length_fmap.
    cbn. lia.
  - rewrite calculateStats_sum. f_equal.
    induction (filter _ (Detector.rules d)) as [|rule rules IH]; [done|].
    rewrite fmap_cons, !filter_cons.
    change (models.Severity_ (Detector.ruleFinding rule))
      with (Rule.Severity rule).
    destruct (decide (reporter.known (Rule.Severity rule) = true));
      cbn [length]; by rewrite IH.
Qed.

End ScanAndReport.

(* ===================================================================== *)
(** * Further properties: the command *)
(* ===================================================================== *)

Section Command.
Import ai cmd.

(** X19: a model directory whose rules.json is the array of the rules and
    that has no config.json gives a detector that is initialized, holds
    exactly these rules in the order of the file, and keeps the defaults
    0.75 and 100. *)
Theorem NewDetector_loads_the_array fs modelPath rules :
  fs !! Join modelPath "rules.json" = Some (JsonText (JArr (encode <$> rules))) →
  Stat_ok fs (Join modelPath "config.json") = false →
  NewDetector fs modelPath
  = Detector.mk modelPath (Q2Qc (3 # 4)) 100 true rules.
Proof.
  intros Hf Hc.
  unfold NewDetector, Detector.initialize, Detector.initRules.
  cbn [Detector.modelPath].
  unfold Stat_ok at 1. rewrite bool_decide_eq_true_2 by (rewrite Hf; eauto).
  rewrite (loadRules_accepts_array _ _ rules Hf).
  unfold Detector.initConfig. cbn [Detector.modelPath Detector.set_rules].
  by rewrite Hc.
Qed.

Lemma NewDetector_loads_the_array_witness :
  let fs : gmap string file :=
    {[ "model/rules.json" := JsonText (JArr (encode <$> configs.rules)) ]} in
  NewDetector fs "model"
  = Detector.mk "model" (Q2Qc (3 # 4)) 100 true configs.rules.
Proof.
  intros fs.
  apply (NewDetector_loads_the_array fs "model" configs.rules); reflexivity.
Defined.

(** X17: when the walk of the target meets an error, [main] ends with
    "Scan failed" and that error: nothing is analyzed and no report file is
    touched. *)
Theorem main_stops_at_a_walk_error build w start fs tree args e :
  showVersion args = false →
  first_error tree = Some e →
  main build w start fs tree args = ([], Fatal "Scan failed" e).
Proof.
  intros Hv He. unfold main, scanner.Scan. rewrite Hv.
  by rewrite Walk_first_error, He.
Qed.

Lemma main_stops_at_a_walk_error_witness :
  let w := reporting.mkEnv 0 0 (λ _, "") (λ _, None) (λ _, None) (λ _, None) in
  let tree :=
    [scanner.mkVisit "src" true None;
     scanner.mkVisit "src/secret" true (Some (WalkError "permission denied"));
     scanner.mkVisit "src/z.go" false None] in
  main (version.mkInfo "dev" "none" "unknown" "go") w 0 examples.model tree
    (mkFlags "src" "model" "json" "security-report" false)
  = ([], Fatal "Scan failed" (WalkError "permission denied")).
Proof.
  intros w tree.
  apply (main_stops_at_a_walk_error _ w 0 examples.model tree); reflexivity.
Defined.

(** X15: with a rules.json that is a JSON object in the model directory --
    the file the repository ships is one -- every run of [main] whose walk
    meets no error ends with "AI analysis failed": the detector is not
    initialized, and no report file is touched. *)
Theorem main_fails_on_an_object_rules_file build w start fs tree args ms :
  showVersion args = false →
  first_error tree = None →
  fs !! Join (modelPath args) "rules.json" = Some (JsonText (JObj ms)) →
  main build w start fs tree args
  = ([], Fatal "AI analysis failed"
           (Errorf "detector not properly initialized")).
Proof.
  intros Hv He Hf. unfold main, scanner.Scan. rewrite Hv.
  rewrite Walk_first_error, He.
  assert (Hflag : Detector.initialized (NewDetector fs (modelPath args)) = false).
  { apply NewDetector_load_failure. left. split.
    - unfold Stat_ok. apply bool_decide_eq_true. rewrite Hf. eauto.
    - unfold unloadable, ReadFile. by rewrite Hf. }
  unfold Detector.Analyze. by rewrite Hflag.
Qed.

Lemma main_fails_on_an_object_rules_file_witness :
  let w := reporting.mkEnv 0 0 (λ _, "") (λ _, None) (λ _, None) (λ _, None) in
  main (version.mkInfo "dev" "none" "unknown" "go") w 0 examples.model
    examples.scenario_tree
    (mkFlags "src" "model" "json" "security-report" false)
  = ([], Fatal "AI analysis failed"
           (Errorf "detector not properly initialized")).
Proof.
  intros w.
  apply (main_fails_on_an_object_rules_file _ w 0 examples.model
           examples.scenario_tree _
           [("rules", JArr (encode <$> configs.rules))]); reflexivity.
Defined.

(** X16: when [main] gets as far as the report -- no walk error, an
    initialized detector with a bound that is not negative, format [json],
    file created and report encoded -- the findings of the report are the
    first [maxFindings] findings synthesized from the rules and nothing
    else, whatever the scanned tree holds; the rules the report names are
    always SEC-001 and SEC-002. *)
Theorem main_reports_the_synthesized_findings build w start fs tree args :
  let d := NewDetector fs (modelPath args) in
  let path := outputPath args +:+ "." +:+ outputFormat args in
  showVersion args = false →
  first_error tree = None →
  Detector.initialized d = true →
  0 ≤ Detector.maxFindings d →
  outputFormat args = "json" →
  reporting.create w path = None →
  (∀ report, reporting.encode w report = None) →
  ∃ report,
    main build w start fs tree args
    = ([reporting.Created path; reporting.Written path report], Generated path)
    ∧ reporting.Findings report
      = take (Z.to_nat (Detector.maxFindings d))
          (Detector.ruleFinding
           <$> filter (λ rule, Rule.Pattern rule ≠ "") (Detector.rules d))
    ∧ reporting.RulesUsed (reporting.ScannerConfig report) = ["SEC-001"; "SEC-002"].
Proof.
  intros d path Hv He Hi Hk Hj Hc Henc.
  unfold main, scanner.Scan. rewrite Hv, Walk_first_error, He.
  fold d. rewrite Analyze_unfold by done.
  rewrite prioritizeFindings_take by done.
  cbn [fmap list_fmap app mbind outcome_bind].
  unfold reporting.Generate. cbv zeta.
  cbn [reporting.New reporting.OutputFormat reporting.OutputPath].
  rewrite decide_True by done.
  unfold reporting.generateJSON. fold path.
  change (reporting.OutputPath (reporting.New (outputFormat args) path))
    with path.
  rewrite Hc, Henc. eexists. split; [reflexivity|]. by split.
Qed.

Lemma main_reports_the_synthesized_findings_witness :
  let w := reporting.mkEnv 0 0 (λ _, "") (λ _, None) (λ _, None) (λ _, None) in
  let fs : gmap string file :=
    {[ "model/rules.json" := JsonText (JArr (encode <$> configs.rules));
       "src/query.txt" := OtherText "SELECT * FROM t WHERE id=${id}" ]} in
  ∃ report,
    main (version.mkInfo "dev" "none" "unknown" "go") w 0 fs
      examples.scenario_tree
      (mkFlags "src" "model" "json" "security-report" false)
    = ([reporting.Created "security-report.json"; reporting.Written "security-report.json" report],
       Generated "security-report.json")
    ∧ reporting.Findings report
      = take (Z.to_nat (Detector.maxFindings (NewDetector fs "model")))
          (Detector.ruleFinding
           <$> filter (λ rule, Rule.Pattern rule ≠ "")
                 (Detector.rules (NewDetector fs "model")))
    ∧ reporting.RulesUsed (reporting.ScannerConfig report) = ["SEC-001"; "SEC-002"].
Proof.
  intros w fs.
  apply (main_reports_the_synthesized_findings
           (version.mkInfo "dev" "none" "unknown" "go") w 0 fs
           examples.scenario_tree
           (mkFlags "src" "model" "json" "security-report" false));
    try reflexivity.
  vm_compute. discriminate.
Defined.

(** X18: asked for the format [html], [main] never writes a report: it
    touches no file and does not end with the report generated. *)
Theorem main_never_generates_html build w start fs tree args :
  showVersion args = false →
  outputFormat args = "html" →
  (main build w start fs tree args).1 = []
  ∧ ∀ path, (main build w start fs tree args).2 ≠ Generated path.
Proof.
  intros Hv Hh. unfold main. rewrite Hv.
  destruct (scanner.Scan _ fs tree) as [findings [e|]]; [done|].
  destruct (Detector.Analyze _ findings) as [[aiResults [e|]]|msg];
    [done| |done].
  rewrite Generate_html_fails_at_parse by done. done.
Qed.

Lemma main_never_generates_html_witness :
  let w := reporting.mkEnv 0 0 (λ _, "") (λ _, None) (λ _, None) (λ _, None) in
  (main (version.mkInfo "dev" "none" "unknown" "go") w 0 ∅
     examples.scenario_tree
     (mkFlags "src" "model" "html" "security-report" false)).1 = [].
Proof.
  intros w.
  apply (main_never_generates_html _ w 0 ∅ examples.scenario_tree
           (mkFlags "src" "model" "html" "security-report" false));
    reflexivity.
Defined.

End Command.

(* ===================================================================== *)
(** * Further properties: thresholds and configuration round trips *)
(* ===================================================================== *)

Section Thresholds.
Import ai.
Local Open Scope Qc_scope.

(** X21: scores never exceed 1, so [UpdateThreshold] with a threshold above
    1 switches the classification off: [Classify] then leaves every finding
    as it is, and reports no error. *)
Theorem threshold_above_one_switches_off range1 range2 c threshold finding :
  map_Forall (λ _, unit_weights) (Classifier.categoryData c) →
  Classifier.initialized c = true →
  1 < threshold →
  visits_all range1 → visits_all range2 →
  Classifier.Classify range1 range2
    (Classifier.UpdateThreshold c threshold) finding
  = Returns (finding, None).
Proof.
  intros Hu Hi Ht Hr1 Hr2.
  set (c' := Classifier.UpdateThreshold c threshold).
  rewrite Classify_unfold; [|done|by apply unit_weights_well_formed|done].
  cbv zeta.
  pose proof (getBestCategory_wins range2 (scoresOf c' finding) Hr2) as Hw.
  apply (wins_range c' finding _ _ Hu) in Hw as [_ Hle].
  rewrite bool_decide_eq_false_2; [done|].
  apply Qclt_not_le. by eapply Qcle_lt_trans.
Qed.

Lemma threshold_above_one_switches_off_witness :
  Classifier.Classify forwards forwards
    (Classifier.UpdateThreshold (NewClassifier examples.model "model")
       (Q2Qc (3 # 2)))
    examples.sql_finding
  = Returns (examples.sql_finding, None).
Proof.
  apply (threshold_above_one_switches_off forwards forwards
           (NewClassifier examples.model "model") (Q2Qc (3 # 2))
           examples.sql_finding).
  - apply NewClassifier_unit_weights.
  - reflexivity.
  - reflexivity.
  - apply visits_all_forwards.
  - apply visits_all_forwards.
Defined.

(** No pattern and no keyword found: the score is 0, and no weight is
    read. *)
Lemma patternScore_unmatched snippet patterns weights : ∀ i score,
  Forall (λ p, Contains snippet p = false) patterns →
  Classifier.patternScore snippet patterns weights i score = Returns score.
Proof.
  induction patterns as [|p ps IH]; intros i score Hall; [done|].
  inversion_clear Hall as [|? ? Hp Hps]. cbn. rewrite Hp. by apply IH.
Qed.

Lemma keywordScore_unmatched description keywords : ∀ score,
  Forall (λ k, Contains (ToLower description) (ToLower k) = false) keywords →
  Classifier.keywordScore description keywords score = score.
Proof.
  unfold Classifier.keywordScore.
  induction keywords as [|k ks IH]; intros score Hall; [done|].
  inversion_clear Hall as [|? ? Hk Hks]. cbn. rewrite Hk. by apply IH.
Qed.

Lemma calculateScore_unmatched finding features :
  unmatched finding features →
  Classifier.calculateScore finding features = Returns 0.
Proof.
  intros [Hp Hk]. unfold Classifier.calculateScore.
  rewrite patternScore_unmatched by done. cbn [mbind outcome_bind].
  rewrite keywordScore_unmatched by done.
  case_bool_decide; [|done]. f_equal. unfold Qcdiv. apply Qcmult_0_l.
Qed.

(** X24: with a threshold above 0, a finding that no profile matches -- no
    pattern in its snippet, no keyword in its description -- is left as it
    is by [Classify] on an initialized classifier. *)
Theorem unmatched_finding_is_left_alone range1 range2 c finding :
  well_formed c →
  Classifier.initialized c = true →
  0 < Classifier.threshold c →
  map_Forall (λ _, unmatched finding) (Classifier.categoryData c) →
  visits_all range1 → visits_all range2 →
  Classifier.Classify range1 range2 c finding = Returns (finding, None).
Proof.
  intros Hwf Hi Ht Hun Hr1 Hr2.
  rewrite Classify_unfold by done. cbv zeta.
  pose proof (getBestCategory_wins range2 (scoresOf c finding) Hr2) as Hw.
  destruct (Classifier.getBestCategory range2 (scoresOf c finding)) as [b s].
  cbn [fst snd] in *.
  assert (s = 0) as ->.
  { destruct Hw as [(_ & _ & ->)|[Hl _]]; [done|].
    unfold scoresOf in Hl. rewrite lookup_fmap in Hl.
    destruct (Classifier.categoryData c !! b) as [features|] eqn:Hb; [|done].
    cbn in Hl. injection Hl as <-. unfold normalizedScore.
    by rewrite (calculateScore_unmatched finding features (Hun b features Hb)). }
  rewrite bool_decide_eq_false_2; [done|]. by apply Qclt_not_le.
Qed.

Lemma unmatched_finding_is_left_alone_witness :
  Classifier.Classify forwards forwards
    (NewClassifier examples.model "model") examples.token_finding
  = Returns (examples.token_finding, None).
Proof.
  apply (unmatched_finding_is_left_alone forwards forwards
           (NewClassifier examples.model "model") examples.token_finding).
  - apply NewClassifier_well_formed.
  - reflexivity.
  - reflexivity.
  - apply map_Forall_to_list. vm_compute. repeat constructor.
  - apply visits_all_forwards.
  - apply visits_all_forwards.
Defined.






End Thresholds.
